(** * The Jewish calendar of [jewish/date.py]: conversion between Jewish dates
    and serial day numbers (SDN).

    Python integers are unbounded, so every number is a [Z]; [//] and [%]
    with a positive divisor are [Z.div] and [Z.modulo] (both round towards
    minus infinity).  The mutable [_Molad] accumulator is threaded through
    the functions as a value; exceptions are an explicit outcome. *)

From Stdlib Require Import ZArith List Bool String Lia.
Import ListNotations.
Open Scope Z_scope.

(* ------------------------------------------------------------------ *)
(** ** Module-level constants *)

Definition HALAKIM_PER_HOUR : Z := 1080.
Definition HALAKIM_PER_DAY : Z := 25920.
Definition HALAKIM_PER_LUNAR_CYCLE : Z := 29 * HALAKIM_PER_DAY + 13753.
Definition HALAKIM_PER_METONIC_CYCLE : Z := HALAKIM_PER_LUNAR_CYCLE * (12 * 19 + 7).

Definition _GREGORIAN_SDN_OFFSET : Z := 1721425.
Definition _JEWISH_SDN_OFFSET : Z := 347997.
Definition _NEW_MOON_OF_CREATION : Z := 31524.

Definition _SUNDAY : Z := 0.
Definition _MONDAY : Z := 1.
Definition _TUESDAY : Z := 2.
Definition _WEDNESDAY : Z := 3.
Definition _FRIDAY : Z := 5.

Definition _NOON : Z := 18 * HALAKIM_PER_HOUR.
Definition _AM3_11_20 : Z := 9 * HALAKIM_PER_HOUR + 204.
Definition _AM9_32_43 : Z := 15 * HALAKIM_PER_HOUR + 589.

(** Membership in a Python set or tuple of integers ([x in s]). *)
Definition py_in (x : Z) (s : list Z) : bool := existsb (Z.eqb x) s.

Definition LEAP_YEARS : list Z := [2; 5; 7; 10; 13; 16; 18].
Definition _YEAR_OFFSET : list Z :=
  [0; 12; 24; 37; 49; 61; 74; 86; 99; 111; 123; 136; 148; 160;
   173; 185; 197; 210; 222].

(** Indexing a Python tuple: a negative index counts from the end, and an
    index outside the tuple raises [IndexError] ([None] here). *)
Definition py_index {A : Type} (t : list A) (i : Z) : option A :=
  let n := Z.of_nat (List.length t) in
  if (0 <=? i) && (i <? n) then nth_error t (Z.to_nat i)
  else if (- n <=? i) && (i <? 0) then nth_error t (Z.to_nat (n + i))
  else None.

(* ------------------------------------------------------------------ *)
(** ** Outcomes: a value, a raised exception, or a loop cut short *)

Inductive exn : Type :=
| InvalidDateError
| KeyError
| IndexError
| UnboundLocalError.

Inductive outcome (A : Type) : Type :=
| Ok (a : A)
| Raise (e : exn)
| OutOfFuel.
Arguments Ok {A} a.
Arguments Raise {A} e.
Arguments OutOfFuel {A}.

(* ------------------------------------------------------------------ *)
(** ** Metonic cycle arithmetic *)

Definition months_in_metonic_year (year : Z) : Z :=
  if py_in year LEAP_YEARS then 13 else 12.

Definition metonic_year (year : Z) : Z := (year - 1) mod 19.

Definition is_leap_year (year : Z) : bool := py_in (metonic_year year) LEAP_YEARS.

(* ------------------------------------------------------------------ *)
(** ** class _Molad *)

Record _Molad : Type := Build_Molad { molad_day : Z; halakim : Z }.

Module Molad.

Definition _fix (self : _Molad) : _Molad :=
  {| molad_day := molad_day self + halakim self / HALAKIM_PER_DAY;
     halakim := halakim self mod HALAKIM_PER_DAY |}.

(** [_Molad(day, halakim)] *)
Definition init (day hal : Z) : _Molad :=
  _fix {| molad_day := day; halakim := hal |}.

Definition _add_halakim (self : _Molad) (hal : Z) : _Molad :=
  _fix {| molad_day := molad_day self; halakim := halakim self + hal |}.

Definition add_lunar_cycles (self : _Molad) (lunarCycles : Z) : _Molad :=
  _add_halakim self (HALAKIM_PER_LUNAR_CYCLE * lunarCycles).

Definition add_metonic_cycles (self : _Molad) (metonicCycles : Z) : _Molad :=
  _add_halakim self (HALAKIM_PER_METONIC_CYCLE * metonicCycles).

Definition day_of_week (self : _Molad) : Z := molad_day self mod 7.

(** The moment a molad denotes, in halakim since the epoch. *)
Definition total (self : _Molad) : Z :=
  molad_day self * HALAKIM_PER_DAY + halakim self.

(** The class invariant that [_fix] establishes. *)
Definition normalized (self : _Molad) : Prop :=
  0 <= halakim self < HALAKIM_PER_DAY.

End Molad.

(* ------------------------------------------------------------------ *)
(** ** The year-start resolver and the molad searches *)

Definition _get_first_day_of_year (metonicCycleYear : Z) (molad : _Molad) : Z :=
  let tishrei1 := molad_day molad in
  let dow := Molad.day_of_week molad in
  let lastWasLeapYear := py_in ((metonicCycleYear - 1) mod 19) LEAP_YEARS in
  let '(tishrei1, dow) :=
    if (_NOON <=? halakim molad)
       || (negb (py_in metonicCycleYear LEAP_YEARS)
           && (dow =? _TUESDAY)
           && (_AM3_11_20 <=? halakim molad))
       || (lastWasLeapYear
           && (dow =? _MONDAY)
           && (_AM9_32_43 <=? halakim molad))
    then (tishrei1 + 1, (dow + 1) mod 7)
    else (tishrei1, dow) in
  if py_in dow [_WEDNESDAY; _FRIDAY; _SUNDAY] then tishrei1 + 1 else tishrei1.

Definition _molad_of_metonic_cycle (metonicCycle : Z) : _Molad :=
  Molad.add_metonic_cycles (Molad.init 0 _NEW_MOON_OF_CREATION) metonicCycle.

(** The first [while] of [_find_nearby_tishrei_molad]; the number of rounds
    is not bounded by a constant, so the loop carries fuel. *)
Fixpoint cycle_loop (fuel : nat) (inputDay metonicCycle : Z) (molad : _Molad)
  : option (Z * _Molad) :=
  match fuel with
  | O => None
  | S fuel' =>
      if molad_day molad <? inputDay - 6940 + 310
      then cycle_loop fuel' inputDay (metonicCycle + 1)
             (Molad.add_metonic_cycles molad 1)
      else Some (metonicCycle, molad)
  end.

(** The second [while]: at most 18 rounds, counted down by [n]. *)
Fixpoint year_loop (n : nat) (inputDay metonicYear : Z) (molad : _Molad)
  : Z * _Molad :=
  match n with
  | O => (metonicYear, molad)
  | S n' =>
      if metonicYear <? 18 then
        if molad_day molad >? inputDay - 74 then (metonicYear, molad)
        else year_loop n' inputDay (metonicYear + 1)
               (Molad.add_lunar_cycles molad (months_in_metonic_year metonicYear))
      else (metonicYear, molad)
  end.

Definition _find_nearby_tishrei_molad (fuel : nat) (inputDay : Z)
  : option (Z * Z * _Molad) :=
  let metonicCycle := (inputDay + 310) / 6940 in
  let molad := _molad_of_metonic_cycle metonicCycle in
  match cycle_loop fuel inputDay metonicCycle molad with
  | None => None
  | Some (metonicCycle, molad) =>
      let '(metonicYear, molad) := year_loop 18 inputDay 0 molad in
      Some (metonicCycle, metonicYear, molad)
  end.

Definition _find_start_of_year (year : Z) : Z * Z * _Molad * Z :=
  let metonicCycle := (year - 1) / 19 in
  let metonicYear := (year - 1) mod 19 in
  let molad := _molad_of_metonic_cycle metonicCycle in
  let molad := Molad.add_lunar_cycles molad (nth (Z.to_nat metonicYear) _YEAR_OFFSET 0) in
  let tishrei1 := _get_first_day_of_year metonicYear molad in
  (metonicCycle, metonicYear, molad, tishrei1).

(* ------------------------------------------------------------------ *)
(** ** class JewishDate *)

Record JewishDate : Type := Build_JewishDate {
  year : Z;
  month : Z;
  day : Z;
  isLeapYear : bool
}.

Module JD.

Definition TISHREI : Z := 1.
Definition CHESHVAN : Z := 2.
Definition KISLEV : Z := 3.
Definition TEVET : Z := 4.
Definition SHEVAT : Z := 5.
Definition ADAR_I : Z := 6.
Definition ADAR_II : Z := 7.
Definition NISAN : Z := 8.
Definition IYAR : Z := 9.
Definition SIVAN : Z := 10.
Definition TAMUZ : Z := 11.
Definition AV : Z := 12.
Definition ELUL : Z := 13.

(** [JewishDate(year, month, day)] *)
Definition init (y m d : Z) : outcome JewishDate :=
  if (y <=? 0) || (m <? 1) || (m >? 13) || (d <? 1) || (d >? 30)
  then Raise InvalidDateError
  else Ok {| year := y; month := m; day := d; isLeapYear := is_leap_year y |}.

(** The [for month, offset in (...)] loop over the last six months: the
    loop variable [month] keeps its last value, [day] is bound only by a
    round that breaks. *)
Fixpoint last_months (inputDay nextTishrei1 : Z) (table : list (Z * Z))
         (m : Z) : Z * option Z :=
  match table with
  | [] => (m, None)
  | (m', offset) :: rest =>
      if inputDay >? nextTishrei1 - offset
      then (m', Some (inputDay - nextTishrei1 + offset))
      else last_months inputDay nextTishrei1 rest m'
  end.

(** The common tail of [from_sdn]: Cheshvan or Kislev by the year length. *)
Definition cheshvan_or_kislev (y inputDay tishrei1 nextTishrei1 : Z)
  : outcome JewishDate :=
  let yearLength := nextTishrei1 - tishrei1 in
  let d := inputDay - tishrei1 - 29 in
  let cheshvanLength := if py_in yearLength [355; 385] then 30 else 29 in
  if d <=? cheshvanLength then init y CHESHVAN d
  else init y KISLEV (d - cheshvanLength).

Definition from_sdn (fuel : nat) (sdn : Z) : outcome JewishDate :=
  if sdn <=? _JEWISH_SDN_OFFSET then Raise InvalidDateError else
  let inputDay := sdn - _JEWISH_SDN_OFFSET in
  match _find_nearby_tishrei_molad fuel inputDay with
  | None => OutOfFuel
  | Some (metonicCycle, metonicYear, molad) =>
    let tishrei1 := _get_first_day_of_year metonicYear molad in
    if inputDay >=? tishrei1 then
      let y := metonicCycle * 19 + metonicYear + 1 in
      if inputDay <? tishrei1 + 59 then
        if inputDay <? tishrei1 + 30
        then init y TISHREI (inputDay - tishrei1 + 1)
        else init y CHESHVAN (inputDay - tishrei1 - 29)
      else
        let molad :=
          Molad.add_lunar_cycles molad (months_in_metonic_year metonicYear) in
        let nextTishrei1 :=
          _get_first_day_of_year ((metonicYear + 1) mod 19) molad in
        cheshvan_or_kislev y inputDay tishrei1 nextTishrei1
    else
      let nextTishrei1 := tishrei1 in
      let y := metonicCycle * 19 + metonicYear in
      if inputDay >=? nextTishrei1 - 177 then
        match last_months inputDay nextTishrei1
                [(ELUL, 30); (AV, 60); (TAMUZ, 89); (SIVAN, 119);
                 (IYAR, 148); (NISAN, 178)] 0 with
        | (m, Some d) => init y m d
        | (_, None) => Raise UnboundLocalError
        end
      else
        let d := inputDay - nextTishrei1 + 207 in
        if d >? 0 then init y ADAR_II d else
        let leap := is_leap_year y in
        let d := if leap then d + 30 else d in
        if leap && (d >? 0) then init y ADAR_I d else
        let d := d + 30 in
        if d >? 0 then init y SHEVAT d else
        let d := d + 29 in
        if d >? 0 then init y TEVET d else
        match _find_nearby_tishrei_molad fuel (molad_day molad - 365) with
        | None => OutOfFuel
        | Some (_, metonicYear, molad) =>
            let tishrei1 := _get_first_day_of_year metonicYear molad in
            cheshvan_or_kislev y inputDay tishrei1 nextTishrei1
        end
  end.

(** A lookup in the [offset] dict of [to_sdn]; a missing key is a
    [KeyError] ([None] here). *)
Fixpoint dict_get (k : Z) (d : list (Z * Z)) : option Z :=
  match d with
  | [] => None
  | (k', v) :: rest => if k =? k' then Some v else dict_get k rest
  end.

Definition to_sdn (self : JewishDate) : outcome Z :=
  let y := year self in
  let m := month self in
  let d := day self in
  if (y <=? 0) || (d <=? 0) || (d >? 30) then Raise InvalidDateError else
  let '(metonicCycle, metonicYear, molad, tishrei1) := _find_start_of_year y in
  let molad := Molad.add_lunar_cycles molad (months_in_metonic_year metonicYear) in
  let nextTishrei1 := _get_first_day_of_year ((metonicYear + 1) mod 19) molad in
  let yearLength := nextTishrei1 - tishrei1 in
  let adarsLength := if isLeapYear self then 59 else 29 in
  let offset :=
    [ (TISHREI, -1);
      (CHESHVAN, 29);
      (TEVET, adarsLength + 237);
      (SHEVAT, adarsLength + 208);
      (ADAR_I, adarsLength + 178);
      (ADAR_II, 207);
      (NISAN, 178);
      (IYAR, 148);
      (SIVAN, 119);
      (TAMUZ, 89);
      (AV, 60);
      (ELUL, 30) ] in
  let sdn :=
    if py_in m [TISHREI; CHESHVAN] then
      match dict_get m offset with
      | Some o => Ok (tishrei1 + d + o)
      | None => Raise KeyError
      end
    else if m =? KISLEV then
      if py_in yearLength [355; 385]
      then Ok (tishrei1 + d + 59)
      else Ok (tishrei1 + d + 58)
    else
      match dict_get m offset with
      | Some o => Ok (nextTishrei1 + d - o)
      | None => Raise InvalidDateError
      end in
  match sdn with
  | Ok s => Ok (s + _JEWISH_SDN_OFFSET)
  | Raise e => Raise e
  | OutOfFuel => OutOfFuel
  end.

Definition names : list string :=
  ["Tishrei"; "Cheshvan"; "Kislev"; "Tevet"; "Shevat"; "Adar I";
   "Adar II"; "Nisan"; "Iyar"; "Sivan"; "Tamuz"; "Av"; "Elul"]%string.

Definition english_month_name (self : JewishDate) : outcome string :=
  if (month self =? ADAR_II) && negb (isLeapYear self) then Ok "Adar II"%string
  else match py_index names (month self - 1) with
       | Some s => Ok s
       | None => Raise IndexError
       end.

End JD.

(* ------------------------------------------------------------------ *)
(** ** [jcal.py]: the earlier module with the same calendar

    [jcal.Molad] and [jcal.JewishDate] carry the same attributes as
    [_Molad] and [JewishDate] of [jewish/date.py], so the records are shared;
    the functions are embedded again from [jcal.py].  [jcal.JewishDate] does
    not validate its arguments, and [SdnToJewish] returns [None] where
    [from_sdn] raises. *)

Module Jcal.

Definition HALAKIM_PER_HOUR : Z := 1080.
Definition HALAKIM_PER_DAY : Z := 25920.
Definition HALAKIM_PER_LUNAR_CYCLE : Z := 29 * HALAKIM_PER_DAY + 13753.
Definition HALAKIM_PER_METONIC_CYCLE : Z := HALAKIM_PER_LUNAR_CYCLE * (12 * 19 + 7).
Definition JEWISH_SDN_OFFSET : Z := 347997.
Definition NEW_MOON_OF_CREATION : Z := 31524.
Definition SUNDAY : Z := 0.
Definition MONDAY : Z := 1.
Definition TUESDAY : Z := 2.
Definition WEDNESDAY : Z := 3.
Definition FRIDAY : Z := 5.
Definition TISHREI : Z := 1.
Definition CHESHVAN : Z := 2.
Definition KISLEV : Z := 3.
Definition TEVET : Z := 4.
Definition SHEVAT : Z := 5.
Definition ADAR_I : Z := 6.
Definition ADAR_II : Z := 7.
Definition NOON : Z := 18 * HALAKIM_PER_HOUR.
Definition AM3_11_20 : Z := 9 * HALAKIM_PER_HOUR + 204.
Definition AM9_32_43 : Z := 15 * HALAKIM_PER_HOUR + 589.
Definition LEAP_YEARS : list Z := [2; 5; 7; 10; 13; 16; 18].
Definition YEAR_OFFSET : list Z :=
  [0; 12; 24; 37; 49; 61; 74; 86; 99; 111; 123; 136; 148; 160; 173;
   185; 197; 210; 222].

Definition monthsInMetonicYear (year : Z) : Z :=
  if py_in year LEAP_YEARS then 13 else 12.

Definition MetonicYear (year : Z) : Z := (year - 1) mod 19.

Definition IsLeapYear (year : Z) : bool := py_in (MetonicYear year) LEAP_YEARS.

Definition Molad_fix (self : _Molad) : _Molad :=
  {| molad_day := molad_day self + halakim self / HALAKIM_PER_DAY;
     halakim := halakim self mod HALAKIM_PER_DAY |}.

Definition Molad_init (day hal : Z) : _Molad :=
  Molad_fix {| molad_day := day; halakim := hal |}.

Definition _addHalakim (self : _Molad) (hal : Z) : _Molad :=
  Molad_fix {| molad_day := molad_day self; halakim := halakim self + hal |}.

Definition addLunarCycles (self : _Molad) (lunarCycles : Z) : _Molad :=
  _addHalakim self (HALAKIM_PER_LUNAR_CYCLE * lunarCycles).

Definition addMetonicCycles (self : _Molad) (metonicCycles : Z) : _Molad :=
  _addHalakim self (HALAKIM_PER_METONIC_CYCLE * metonicCycles).

Definition dayOfWeek (self : _Molad) : Z := molad_day self mod 7.

(** [jcal.JewishDate(year, month, day)]: no bounds are checked. *)
Definition JewishDate_init (y m d : Z) : JewishDate :=
  {| year := y; month := m; day := d; isLeapYear := IsLeapYear y |}.

Definition englishMonthName (self : JewishDate) : outcome string :=
  if (month self =? ADAR_II) && negb (isLeapYear self) then Ok "Adar II"%string
  else match py_index
               ["Tishrei"; "Cheshvan"; "Kislev"; "Tevet"; "Shevat"; "Adar I";
                "Adar II"; "Nisan"; "Iyar"; "Sivan"; "Tamuz"; "Av"; "Elul"]%string
               (month self - 1) with
       | Some s => Ok s
       | None => Raise IndexError
       end.

Definition Tishrei1 (metonicCycleYear : Z) (molad : _Molad) : Z :=
  let tishrei1 := molad_day molad in
  let dow := dayOfWeek molad in
  let lastWasLeapYear := py_in ((metonicCycleYear - 1) mod 19) LEAP_YEARS in
  let '(tishrei1, dow) :=
    if (NOON <=? halakim molad)
       || (negb (py_in metonicCycleYear LEAP_YEARS)
           && (dow =? TUESDAY)
           && (AM3_11_20 <=? halakim molad))
       || (lastWasLeapYear
           && (dow =? MONDAY)
           && (AM9_32_43 <=? halakim molad))
    then (tishrei1 + 1, (dow + 1) mod 7)
    else (tishrei1, dow) in
  if py_in dow [WEDNESDAY; FRIDAY; SUNDAY] then tishrei1 + 1 else tishrei1.

Definition MoladOfMetonicCycle (metonicCycle : Z) : _Molad :=
  addMetonicCycles (Molad_init 0 NEW_MOON_OF_CREATION) metonicCycle.

Fixpoint cycle_loop (fuel : nat) (inputDay metonicCycle : Z) (molad : _Molad)
  : option (Z * _Molad) :=
  match fuel with
  | O => None
  | S fuel' =>
      if molad_day molad <? inputDay - 6940 + 310
      then cycle_loop fuel' inputDay (metonicCycle + 1) (addMetonicCycles molad 1)
      else Some (metonicCycle, molad)
  end.

Fixpoint year_loop (n : nat) (inputDay metonicYear : Z) (molad : _Molad)
  : Z * _Molad :=
  match n with
  | O => (metonicYear, molad)
  | S n' =>
      if metonicYear <? 18 then
        if molad_day molad >? inputDay - 74 then (metonicYear, molad)
        else year_loop n' inputDay (metonicYear + 1)
               (addLunarCycles molad (monthsInMetonicYear metonicYear))
      else (metonicYear, molad)
  end.

Definition FindTishreiMolad (fuel : nat) (inputDay : Z) : option (Z * Z * _Molad) :=
  let metonicCycle := (inputDay + 310) / 6940 in
  let molad := MoladOfMetonicCycle metonicCycle in
  match cycle_loop fuel inputDay metonicCycle molad with
  | None => None
  | Some (metonicCycle, molad) =>
      let '(metonicYear, molad) := year_loop 18 inputDay 0 molad in
      Some (metonicCycle, metonicYear, molad)
  end.

Definition FindStartOfYear (year : Z) : Z * Z * _Molad * Z :=
  let metonicCycle := (year - 1) / 19 in
  let metonicYear := (year - 1) mod 19 in
  let molad := MoladOfMetonicCycle metonicCycle in
  let molad := addLunarCycles molad (nth (Z.to_nat metonicYear) YEAR_OFFSET 0) in
  let tishrei1 := Tishrei1 metonicYear molad in
  (metonicCycle, metonicYear, molad, tishrei1).

Fixpoint last_months (inputDay nextTishrei1 : Z) (table : list (Z * Z))
         (m : Z) : Z * option Z :=
  match table with
  | [] => (m, None)
  | (m', offset) :: rest =>
      if inputDay >? nextTishrei1 - offset
      then (m', Some (inputDay - nextTishrei1 + offset))
      else last_months inputDay nextTishrei1 rest m'
  end.

Definition cheshvan_or_kislev (y inputDay tishrei1 nextTishrei1 : Z) : JewishDate :=
  let yearLength := nextTishrei1 - tishrei1 in
  let d := inputDay - tishrei1 - 29 in
  let cheshvanLength := if py_in yearLength [355; 385] then 30 else 29 in
  if d <=? cheshvanLength then JewishDate_init y CHESHVAN d
  else JewishDate_init y KISLEV (d - cheshvanLength).

(** [SdnToJewish]: [Ok None] is Python's [None]. *)
Definition SdnToJewish (fuel : nat) (sdn : Z) : outcome (option JewishDate) :=
  if sdn <=? JEWISH_SDN_OFFSET then Ok None else
  let inputDay := sdn - JEWISH_SDN_OFFSET in
  match FindTishreiMolad fuel inputDay with
  | None => OutOfFuel
  | Some (metonicCycle, metonicYear, molad) =>
    let tishrei1 := Tishrei1 metonicYear molad in
    if inputDay >=? tishrei1 then
      let y := metonicCycle * 19 + metonicYear + 1 in
      if inputDay <? tishrei1 + 59 then
        if inputDay <? tishrei1 + 30
        then Ok (Some (JewishDate_init y TISHREI (inputDay - tishrei1 + 1)))
        else Ok (Some (JewishDate_init y CHESHVAN (inputDay - tishrei1 - 29)))
      else
        let molad := addLunarCycles molad (monthsInMetonicYear metonicYear) in
        let nextTishrei1 := Tishrei1 ((metonicYear + 1) mod 19) molad in
        Ok (Some (cheshvan_or_kislev y inputDay tishrei1 nextTishrei1))
    else
      let nextTishrei1 := tishrei1 in
      let y := metonicCycle * 19 + metonicYear in
      if inputDay >=? nextTishrei1 - 177 then
        match last_months inputDay nextTishrei1
                [(13, 30); (12, 60); (11, 89); (10, 119); (9, 148); (8, 178)] 0 with
        | (m, Some d) => Ok (Some (JewishDate_init y m d))
        | (_, None) => Raise UnboundLocalError
        end
      else
        let d := inputDay - nextTishrei1 + 207 in
        if d >? 0 then Ok (Some (JewishDate_init y ADAR_II d)) else
        let leap := IsLeapYear y in
        let d := if leap then d + 30 else d in
        if leap && (d >? 0) then Ok (Some (JewishDate_init y ADAR_I d)) else
        let d := d + 30 in
        if d >? 0 then Ok (Some (JewishDate_init y SHEVAT d)) else
        let d := d + 29 in
        if d >? 0 then Ok (Some (JewishDate_init y TEVET d)) else
        match FindTishreiMolad fuel (molad_day molad - 365) with
        | None => OutOfFuel
        | Some (_, metonicYear, molad) =>
            let tishrei1 := Tishrei1 metonicYear molad in
            Ok (Some (cheshvan_or_kislev y inputDay tishrei1 nextTishrei1))
        end
  end.

End Jcal.

(* ------------------------------------------------------------------ *)
(** ** [from_date] and [to_date] up to the Gregorian ordinal

    [datetime.date] is Python's; [from_date] reads a date's ordinal and
    [to_date] hands an ordinal to [date.fromordinal].  Python's dates have
    the ordinals 1 (1 January of year 1) to 3652059 (31 December 9999). *)

Definition from_date_ordinal (fuel : nat) (ordinal : Z) : outcome JewishDate :=
  JD.from_sdn fuel (ordinal + _GREGORIAN_SDN_OFFSET).

Definition to_date_ordinal (self : JewishDate) : outcome Z :=
  match JD.to_sdn self with
  | Ok s => Ok (s - _GREGORIAN_SDN_OFFSET)
  | Raise e => Raise e
  | OutOfFuel => OutOfFuel
  end.

(* ------------------------------------------------------------------ *)
(** ** Notions used to state the properties *)

(** The [n] consecutive years starting with [y]. *)
Definition consecutive_years (y : Z) (n : nat) : list Z :=
  map (fun i => y + Z.of_nat i) (seq 0 n).

(** The molad and the first day that [_find_start_of_year] returns, and
    the first day of the following year as [to_sdn] computes it. *)
Definition molad_of_year (y : Z) : _Molad :=
  let '(_, _, molad, _) := _find_start_of_year y in molad.

Definition tishrei1_of_year (y : Z) : Z :=
  let '(_, _, _, tishrei1) := _find_start_of_year y in tishrei1.

Definition next_tishrei1 (y : Z) : Z :=
  let my := (y - 1) mod 19 in
  _get_first_day_of_year ((my + 1) mod 19)
    (Molad.add_lunar_cycles (molad_of_year y) (months_in_metonic_year my)).

Definition year_length (y : Z) : Z := next_tishrei1 y - tishrei1_of_year y.

(** The arithmetic of [to_sdn] once the two year starts are known. *)
Definition to_sdn_body (leap : bool) (tishrei1 nextTishrei1 m d : Z) : outcome Z :=
  let adarsLength := if leap then 59 else 29 in
  if py_in m [1; 2] then
    (if m =? 1 then Ok (tishrei1 + d + -1 + _JEWISH_SDN_OFFSET)
     else Ok (tishrei1 + d + 29 + _JEWISH_SDN_OFFSET))
  else if m =? 3 then
    (if py_in (nextTishrei1 - tishrei1) [355; 385]
     then Ok (tishrei1 + d + 59 + _JEWISH_SDN_OFFSET)
     else Ok (tishrei1 + d + 58 + _JEWISH_SDN_OFFSET))
  else
    match JD.dict_get m
            [(4, adarsLength + 237); (5, adarsLength + 208); (6, adarsLength + 178);
             (7, 207); (8, 178); (9, 148); (10, 119); (11, 89); (12, 60); (13, 30)] with
    | Some o => Ok (nextTishrei1 + d - o + _JEWISH_SDN_OFFSET)
    | None => Raise InvalidDateError
    end.

Definition year_length_from (my : Z) (m : _Molad) : Z :=
  _get_first_day_of_year ((my + 1) mod 19)
    (Molad.add_lunar_cycles m (months_in_metonic_year my))
  - _get_first_day_of_year my m.

Definition year_length_ok (my len : Z) : bool :=
  if py_in my LEAP_YEARS then py_in len [383; 384; 385] else py_in len [353; 354; 355].

(** The postponement of [_get_first_day_of_year], from the three threshold
    tests on the halakim and the day of the week [r]. *)
Definition delayb (leap lastLeap : bool) (r : Z) (n a3 a9 : bool) : Z :=
  let c := n || (negb leap && (r =? 2) && a3) || (lastLeap && (r =? 1) && a9) in
  let r' := if c then (r + 1) mod 7 else r in
  (if c then 1 else 0) + (if py_in r' [3; 5; 0] then 1 else 0).

(** What the year length sees of the halakim [h] of the molad. *)
Record obs : Type := Build_obs {
  o_n : bool; o_a3 : bool; o_a9 : bool;
  o_c12 : bool; o_n12 : bool; o_a3_12 : bool; o_a9_12 : bool;
  o_c13 : bool; o_n13 : bool; o_a3_13 : bool; o_a9_13 : bool
}.

Definition observe (h : Z) : obs :=
  let h12 := h + 9516 - (if 16404 <=? h then 25920 else 0) in
  let h13 := h + 23269 - (if 2651 <=? h then 25920 else 0) in
  {| o_n := 19440 <=? h; o_a3 := 9924 <=? h; o_a9 := 16789 <=? h;
     o_c12 := 16404 <=? h;
     o_n12 := 19440 <=? h12; o_a3_12 := 9924 <=? h12; o_a9_12 := 16789 <=? h12;
     o_c13 := 2651 <=? h;
     o_n13 := 19440 <=? h13; o_a3_13 := 9924 <=? h13; o_a9_13 := 16789 <=? h13 |}.

Definition year_length_abs (my r : Z) (o : obs) : Z :=
  let leap := py_in my LEAP_YEARS in
  let lastLeap := py_in ((my - 1) mod 19) LEAP_YEARS in
  let nextLeap := py_in ((my + 1) mod 19) LEAP_YEARS in
  let nextLast := py_in (((my + 1) mod 19 - 1) mod 19) LEAP_YEARS in
  if leap then
    let k := 383 + (if o_c13 o then 1 else 0) in
    k + delayb nextLeap nextLast ((r + k) mod 7) (o_n13 o) (o_a3_13 o) (o_a9_13 o)
      - delayb leap lastLeap r (o_n o) (o_a3 o) (o_a9 o)
  else
    let k := 354 + (if o_c12 o then 1 else 0) in
    k + delayb nextLeap nextLast ((r + k) mod 7) (o_n12 o) (o_a3_12 o) (o_a9_12 o)
      - delayb leap lastLeap r (o_n o) (o_a3 o) (o_a9 o).

(** One representative per interval between the break points. *)
Definition representative (h : Z) : Z :=
  if h <? 408 then 0 else if h <? 2651 then 408 else if h <? 7273 then 2651
  else if h <? 9924 then 7273 else if h <? 12575 then 9924
  else if h <? 16404 then 12575 else if h <? 16789 then 16404
  else if h <? 19440 then 16789 else if h <? 22091 then 19440 else 22091.

Definition representatives : list Z :=
  [0; 408; 2651; 7273; 9924; 12575; 16404; 16789; 19440; 22091].

Definition metonic_positions : list Z :=
  [0; 1; 2; 3; 4; 5; 6; 7; 8; 9; 10; 11; 12; 13; 14; 15; 16; 17; 18].
Definition week_days : list Z := [0; 1; 2; 3; 4; 5; 6].

Definition year_length_check : bool :=
  forallb (fun my =>
    forallb (fun r =>
      forallb (fun h => year_length_ok my (year_length_abs my r (observe h)))
        representatives) week_days) metonic_positions.

(** Lunations from the epoch molad to the molad of Tishrei of year [y]. *)
Definition months_before (y : Z) : Z :=
  235 * ((y - 1) / 19) + nth (Z.to_nat ((y - 1) mod 19)) _YEAR_OFFSET 0.

Abbreviation molad_day_of_year y := (molad_day (molad_of_year y)).

Definition month_length_of (leap : bool) (len m : Z) : Z :=
  match m with
  | 1 => 30
  | 2 => if py_in len [355; 385] then 30 else 29
  | 3 => if py_in len [353; 383] then 29 else 30
  | 4 => 29
  | 5 => 30
  | 6 => if leap then 30 else 0
  | 7 => 29
  | 8 => 30
  | 9 => 29
  | 10 => 30
  | 11 => 29
  | 12 => 30
  | 13 => 29
  | _ => 0
  end.

Definition all_months : list Z := [1; 2; 3; 4; 5; 6; 7; 8; 9; 10; 11; 12; 13].

Definition days_before_month_of (leap : bool) (len m : Z) : Z :=
  fold_right Z.add 0
    (map (month_length_of leap len) (filter (fun k => k <? m) all_months)).

Definition month_length (y m : Z) : Z :=
  month_length_of (is_leap_year y) (year_length y) m.

Definition days_before_month (y m : Z) : Z :=
  days_before_month_of (is_leap_year y) (year_length y) m.

Definition valid_date (date : JewishDate) : Prop :=
  1 <= year date
  /\ 1 <= month date <= 13
  /\ 1 <= day date <= month_length (year date) (month date)
  /\ isLeapYear date = is_leap_year (year date).

(** Chronological order: by year, then month, then day. *)
Definition date_lt (a b : JewishDate) : Prop :=
  year a < year b
  \/ (year a = year b
      /\ (month a < month b \/ (month a = month b /\ day a < day b))).

(** The outcome is a valid date that [to_sdn] maps back to [sdn]. *)
Definition good_result (sdn : Z) (r : outcome JewishDate) : Prop :=
  exists date : JewishDate,
    r = Ok date /\ valid_date date /\ JD.to_sdn date = Ok sdn.

(** The proleptic Gregorian ordinal of Python's [datetime.date.toordinal]
    (standard library, not part of this repository): day 1 is 1 January of
    year 1. *)
Definition gregorian_is_leap (y : Z) : bool :=
  (y mod 4 =? 0) && (negb (y mod 100 =? 0) || (y mod 400 =? 0)).

Definition gregorian_days_before_year (y : Z) : Z :=
  let p := y - 1 in p * 365 + p / 4 - p / 100 + p / 400.

Definition gregorian_days_before_month (y m : Z) : Z :=
  nth (Z.to_nat m) [0; 0; 31; 59; 90; 120; 151; 181; 212; 243; 273; 304; 334] 0
  + (if (m >? 2) && gregorian_is_leap y then 1 else 0).

Definition toordinal (y m d : Z) : Z :=
  gregorian_days_before_year y + gregorian_days_before_month y m + d.

(** [JewishDate.from_date], for the Gregorian date [(y, m, d)]. *)
Definition from_date (fuel : nat) (y m d : Z) : outcome JewishDate :=
  JD.from_sdn fuel (toordinal y m d + _GREGORIAN_SDN_OFFSET).

(** [jcal.SdnToJewish] with its helpers replaced by the equal functions of
    [jewish/date.py]. *)
Definition jcal_sdn_to_jewish_body (fuel : nat) (sdn : Z) : outcome (option JewishDate) :=
  if sdn <=? _JEWISH_SDN_OFFSET then Ok None else
  let inputDay := sdn - _JEWISH_SDN_OFFSET in
  match _find_nearby_tishrei_molad fuel inputDay with
  | None => OutOfFuel
  | Some (metonicCycle, metonicYear, molad) =>
    let tishrei1 := _get_first_day_of_year metonicYear molad in
    if inputDay >=? tishrei1 then
      let y := metonicCycle * 19 + metonicYear + 1 in
      if inputDay <? tishrei1 + 59 then
        if inputDay <? tishrei1 + 30
        then Ok (Some (Jcal.JewishDate_init y 1 (inputDay - tishrei1 + 1)))
        else Ok (Some (Jcal.JewishDate_init y 2 (inputDay - tishrei1 - 29)))
      else
        let molad :=
          Molad.add_lunar_cycles molad (months_in_metonic_year metonicYear) in
        let nextTishrei1 := _get_first_day_of_year ((metonicYear + 1) mod 19) molad in
        Ok (Some (Jcal.cheshvan_or_kislev y inputDay tishrei1 nextTishrei1))
    else
      let nextTishrei1 := tishrei1 in
      let y := metonicCycle * 19 + metonicYear in
      if inputDay >=? nextTishrei1 - 177 then
        match JD.last_months inputDay nextTishrei1
                [(13, 30); (12, 60); (11, 89); (10, 119); (9, 148); (8, 178)] 0 with
        | (m, Some d) => Ok (Some (Jcal.JewishDate_init y m d))
        | (_, None) => Raise UnboundLocalError
        end
      else
        let d := inputDay - nextTishrei1 + 207 in
        if d >? 0 then Ok (Some (Jcal.JewishDate_init y 7 d)) else
        let leap := is_leap_year y in
        let d := if leap then d + 30 else d in
        if leap && (d >? 0) then Ok (Some (Jcal.JewishDate_init y 6 d)) else
        let d := d + 30 in
        if d >? 0 then Ok (Some (Jcal.JewishDate_init y 5 d)) else
        let d := d + 29 in
        if d >? 0 then Ok (Some (Jcal.JewishDate_init y 4 d)) else
        match _find_nearby_tishrei_molad fuel (molad_day molad - 365) with
        | None => OutOfFuel
        | Some (_, metonicYear, molad) =>
            let tishrei1 := _get_first_day_of_year metonicYear molad in
            Ok (Some (Jcal.cheshvan_or_kislev y inputDay tishrei1 nextTishrei1))
        end
  end.

(* ================================================================== *)
(** * Properties *)

(* ------------------------------------------------------------------ *)
(** ** The molad accumulator *)

Module MoladFacts.
Import Molad.

Lemma fix_normalized (m : _Molad) : normalized (_fix m).
Proof.
  unfold normalized, _fix, HALAKIM_PER_DAY; simpl.
  apply Z.mod_pos_bound; lia.
Qed.

Lemma fix_total (m : _Molad) : total (_fix m) = total m.
Proof.
  unfold total, _fix, HALAKIM_PER_DAY; simpl.
  pose proof (Z.div_mod (halakim m) 25920); lia.
Qed.

Lemma add_halakim_normalized (m : _Molad) (k : Z) : normalized (_add_halakim m k).
Proof. apply fix_normalized. Qed.

Lemma add_halakim_total (m : _Molad) (k : Z) :
  total (_add_halakim m k) = total m + k.
Proof.
  unfold _add_halakim; rewrite fix_total; unfold total; simpl; lia.
Qed.

Lemma add_lunar_normalized (m : _Molad) (n : Z) : normalized (add_lunar_cycles m n).
Proof. apply fix_normalized. Qed.

Lemma add_lunar_total (m : _Molad) (n : Z) :
  total (add_lunar_cycles m n) = total m + HALAKIM_PER_LUNAR_CYCLE * n.
Proof. apply add_halakim_total. Qed.

Lemma add_metonic_normalized (m : _Molad) (n : Z) : normalized (add_metonic_cycles m n).
Proof. apply fix_normalized. Qed.

Lemma add_metonic_total (m : _Molad) (n : Z) :
  total (add_metonic_cycles m n) = total m + HALAKIM_PER_METONIC_CYCLE * n.
Proof. apply add_halakim_total. Qed.

(** A normalized molad is determined by the moment it denotes. *)
Lemma normalized_total_inj (a b : _Molad) :
  normalized a -> normalized b -> total a = total b -> a = b.
Proof.
  destruct a as [da ha], b as [db hb].
  unfold normalized, total, HALAKIM_PER_DAY; simpl; intros Ha Hb Ht.
  assert (da = db) by nia. subst db. f_equal. lia.
Qed.

Lemma normalized_day_bounds (m : _Molad) :
  normalized m ->
  HALAKIM_PER_DAY * molad_day m <= total m < HALAKIM_PER_DAY * molad_day m + HALAKIM_PER_DAY.
Proof. unfold normalized, total, HALAKIM_PER_DAY; lia. Qed.

End MoladFacts.

(** C9: adding any signed number of halakim re-normalizes with floor
    division: afterwards [0 <= halakim < HALAKIM_PER_DAY], the day moved by
    the floor quotient, and the moment [day * HALAKIM_PER_DAY + halakim]
    is the old moment plus the increment; [add_lunar_cycles] and
    [add_metonic_cycles] keep the same invariant. *)
Theorem molad_add_renormalizes :
  forall (m : _Molad) (k : Z),
    (let m' := Molad._add_halakim m k in
     0 <= halakim m' < HALAKIM_PER_DAY
     /\ molad_day m' = molad_day m + (halakim m + k) / HALAKIM_PER_DAY
     /\ halakim m' = (halakim m + k) mod HALAKIM_PER_DAY
     /\ Molad.total m' = Molad.total m + k)
    /\ (let m' := Molad.add_lunar_cycles m k in
        0 <= halakim m' < HALAKIM_PER_DAY
        /\ Molad.total m' = Molad.total m + HALAKIM_PER_LUNAR_CYCLE * k)
    /\ (let m' := Molad.add_metonic_cycles m k in
        0 <= halakim m' < HALAKIM_PER_DAY
        /\ Molad.total m' = Molad.total m + HALAKIM_PER_METONIC_CYCLE * k).
Proof.
  intros m k. repeat split.
  - apply (MoladFacts.add_halakim_normalized m k).
  - apply (MoladFacts.add_halakim_normalized m k).
  - apply MoladFacts.add_halakim_total.
  - apply (MoladFacts.add_lunar_normalized m k).
  - apply (MoladFacts.add_lunar_normalized m k).
  - apply MoladFacts.add_lunar_total.
  - apply (MoladFacts.add_metonic_normalized m k).
  - apply (MoladFacts.add_metonic_normalized m k).
  - apply MoladFacts.add_metonic_total.
Qed.

(* ------------------------------------------------------------------ *)
(** ** The leap-year cycle *)

Lemma py_in_In (x : Z) (s : list Z) : py_in x s = true <-> In x s.
Proof.
  unfold py_in. rewrite existsb_exists. split.
  - intros [v [Hv He]]. apply Z.eqb_eq in He. subst v. exact Hv.
  - intro H. exists x. split; [exact H | apply Z.eqb_refl].
Qed.

Lemma is_leap_year_filter (l : list Z) :
  map metonic_year (filter is_leap_year l)
  = filter (fun p => py_in p LEAP_YEARS) (map metonic_year l).
Proof.
  induction l as [|a l IH]; [reflexivity|].
  cbn [map filter]. unfold is_leap_year at 1.
  destruct (py_in (metonic_year a) LEAP_YEARS); cbn [map]; rewrite IH; reflexivity.
Qed.

Lemma metonic_year_range (y : Z) : 0 <= metonic_year y < 19.
Proof. unfold metonic_year; apply Z.mod_pos_bound; lia. Qed.

Lemma metonic_positions_of_window (y : Z) :
  map metonic_year (consecutive_years y 19)
  = map (fun i => (metonic_year y + Z.of_nat i) mod 19) (seq 0 19).
Proof.
  unfold consecutive_years. rewrite map_map. apply map_ext. intro i.
  unfold metonic_year.
  rewrite Zplus_mod_idemp_l. f_equal. lia.
Qed.

Ltac cases_below H :=
  match type of H with
  | 0 <= ?r < ?n =>
      let rec go k :=
        (assert (r = k \/ k < r) as [->|?] by lia;
         [ | first [ exfalso; lia | go ltac:(eval compute in (k + 1)) ] ])
      in go 0
  end.

(** C5: in any 19 consecutive years [is_leap_year] holds for exactly 7, and
    the metonic positions [(year - 1) mod 19] of those 7 years are exactly
    2, 5, 7, 10, 13, 16 and 18. *)
Theorem leap_cycle_property :
  forall y : Z,
    List.length (filter is_leap_year (consecutive_years y 19)) = 7%nat
    /\ (forall p : Z,
          In p (map metonic_year (filter is_leap_year (consecutive_years y 19)))
          <-> In p [2; 5; 7; 10; 13; 16; 18])
    /\ (forall year : Z,
          is_leap_year year = true <-> In ((year - 1) mod 19) [2; 5; 7; 10; 13; 16; 18]).
Proof.
  intro y.
  assert (Hw : forall p, In p (map metonic_year (filter is_leap_year (consecutive_years y 19)))
                         <-> In p [2; 5; 7; 10; 13; 16; 18]).
  { intro p. rewrite is_leap_year_filter, metonic_positions_of_window.
    pose proof (metonic_year_range y) as Hr.
    remember (metonic_year y) as r eqn:Er. clear Er.
    cases_below Hr; vm_compute filter; simpl; tauto. }
  split; [|split].
  - rewrite <- (length_map metonic_year), is_leap_year_filter, metonic_positions_of_window.
    pose proof (metonic_year_range y) as Hr.
    remember (metonic_year y) as r eqn:Er. clear Er.
    cases_below Hr; reflexivity.
  - exact Hw.
  - intro yr. unfold is_leap_year, metonic_year. apply py_in_In.
Qed.

(* ------------------------------------------------------------------ *)
(** ** Year starts *)

Lemma to_sdn_unfold (self : JewishDate) :
  JD.to_sdn self =
  if (year self <=? 0) || (day self <=? 0) || (day self >? 30)
  then Raise InvalidDateError
  else to_sdn_body (isLeapYear self) (tishrei1_of_year (year self))
         (next_tishrei1 (year self)) (month self) (day self).
Proof.
  unfold JD.to_sdn, to_sdn_body, tishrei1_of_year, next_tishrei1, molad_of_year,
    _find_start_of_year.
  destruct ((year self <=? 0) || (day self <=? 0) || (day self >? 30));
    [reflexivity|].
  cbv beta iota zeta.
  change JD.TISHREI with 1; change JD.CHESHVAN with 2; change JD.KISLEV with 3;
  change JD.TEVET with 4; change JD.SHEVAT with 5; change JD.ADAR_I with 6;
  change JD.ADAR_II with 7; change JD.NISAN with 8; change JD.IYAR with 9;
  change JD.SIVAN with 10; change JD.TAMUZ with 11; change JD.AV with 12;
  change JD.ELUL with 13.
  set (t := _get_first_day_of_year _ _).
  set (nt := _get_first_day_of_year _ _).
  set (al := if isLeapYear self then 59 else 29).
  unfold py_in. cbn [existsb JD.dict_get].
  destruct (month self =? 1) eqn:E1; [reflexivity|].
  destruct (month self =? 2) eqn:E2; [reflexivity|].
  cbn [orb].
  destruct (month self =? 3);
    [destruct ((nt - t =? 355) || ((nt - t =? 385) || false)); reflexivity|].
  match goal with |- context [match ?o with Some _ => _ | None => _ end] =>
    destruct o end; reflexivity.
Qed.

Lemma init_ok (y m d : Z) (date : JewishDate) :
  JD.init y m d = Ok date ->
  1 <= y /\ 1 <= m <= 13 /\ 1 <= d <= 30
  /\ date = {| year := y; month := m; day := d; isLeapYear := is_leap_year y |}.
Proof.
  unfold JD.init.
  destruct (y <=? 0) eqn:Ey; [discriminate|].
  destruct (m <? 1) eqn:Em1; [discriminate|].
  destruct (m >? 13) eqn:Em2; [discriminate|].
  destruct (d <? 1) eqn:Ed1; [discriminate|].
  destruct (d >? 30) eqn:Ed2; [discriminate|].
  cbn [orb]. intro H; injection H as <-.
  rewrite Z.gtb_ltb in Em2, Ed2.
  apply Z.leb_gt in Ey. apply Z.ltb_ge in Em1, Em2, Ed1, Ed2.
  repeat split; try lia.
Qed.

Lemma init_valid (y m d : Z) :
  1 <= y -> 1 <= m <= 13 -> 1 <= d <= 30 ->
  JD.init y m d
  = Ok {| year := y; month := m; day := d; isLeapYear := is_leap_year y |}.
Proof.
  intros Hy Hm Hd. unfold JD.init.
  replace (y <=? 0) with false by lia.
  replace (m <? 1) with false by lia.
  replace (m >? 13) with false by lia.
  replace (d <? 1) with false by lia.
  replace (d >? 30) with false by lia.
  reflexivity.
Qed.

Lemma to_sdn_constructed (y m d : Z) :
  1 <= y -> 1 <= d <= 30 ->
  JD.to_sdn {| year := y; month := m; day := d; isLeapYear := is_leap_year y |}
  = to_sdn_body (is_leap_year y) (tishrei1_of_year y) (next_tishrei1 y) m d.
Proof.
  intros Hy Hd. rewrite to_sdn_unfold. cbn [year month day isLeapYear].
  replace (y <=? 0) with false by lia.
  replace (d <=? 0) with false by lia.
  replace (d >? 30) with false by lia.
  reflexivity.
Qed.

(** Whatever the molad, the day [_get_first_day_of_year] returns is no
    Sunday, Wednesday or Friday, and it is 0, 1 or 2 days after the molad. *)
Lemma first_day_not_adu (my : Z) (m : _Molad) :
  py_in (_get_first_day_of_year my m mod 7) [_SUNDAY; _WEDNESDAY; _FRIDAY] = false.
Proof.
  unfold _get_first_day_of_year, Molad.day_of_week.
  generalize (molad_day m) as d. intro d.
  pose proof (Z.mod_pos_bound d 7 ltac:(lia)) as Hr.
  assert (H1 : (d + 1) mod 7 = (d mod 7 + 1) mod 7)
    by (rewrite Zplus_mod_idemp_l; reflexivity).
  assert (H2 : (d + 1 + 1) mod 7 = (d mod 7 + 2) mod 7)
    by (rewrite <- Z.add_assoc, Zplus_mod_idemp_l; reflexivity).
  remember (d mod 7) as r eqn:Er.
  match goal with |- context [if ?c then (_, _) else _] => destruct c end;
    cbv beta iota zeta;
    match goal with |- context [if ?c then _ else _] => destruct c eqn:E end;
    rewrite ?H2, ?H1, <- ?Er; clear H1 H2 Er;
    cases_below Hr; vm_compute in E |- *; congruence.
Qed.

Lemma first_day_delay (my : Z) (m : _Molad) :
  molad_day m <= _get_first_day_of_year my m <= molad_day m + 2.
Proof.
  unfold _get_first_day_of_year.
  match goal with |- context [if ?c then (_, _) else _] => destruct c end;
    match goal with |- context [if ?c then _ else _] => destruct c end; lia.
Qed.

(** C3 (lo adu rosh): for every year from 1 on, [to_sdn] of Tishrei 1 is
    the year start found by [_find_start_of_year] plus the epoch offset, and
    that day is no Sunday, Wednesday or Friday: not 0, 3 or 5 in the
    numbering of [day_of_week], that is not 6, 2 or 4 modulo 7 as an SDN. *)
Theorem lo_adu_rosh :
  forall y : Z, 1 <= y ->
    exists (date : JewishDate) (s : Z),
      JD.init y JD.TISHREI 1 = Ok date
      /\ JD.to_sdn date = Ok s
      /\ s = tishrei1_of_year y + _JEWISH_SDN_OFFSET
      /\ py_in ((s - _JEWISH_SDN_OFFSET) mod 7) [_SUNDAY; _WEDNESDAY; _FRIDAY] = false
      /\ ~ In (s mod 7) [6; 2; 4].
Proof.
  intros y Hy.
  exists {| year := y; month := 1; day := 1; isLeapYear := is_leap_year y |}.
  exists (tishrei1_of_year y + _JEWISH_SDN_OFFSET).
  assert (Hd : py_in (tishrei1_of_year y mod 7) [_SUNDAY; _WEDNESDAY; _FRIDAY] = false).
  { unfold tishrei1_of_year, _find_start_of_year. apply first_day_not_adu. }
  split; [apply init_valid; unfold JD.TISHREI; lia|].
  split; [rewrite to_sdn_constructed by lia; unfold to_sdn_body; cbn; f_equal; lia|].
  split; [reflexivity|].
  split; [replace (tishrei1_of_year y + _JEWISH_SDN_OFFSET - _JEWISH_SDN_OFFSET)
            with (tishrei1_of_year y) by lia; exact Hd|].
  intro Hin.
  assert (Hs : (tishrei1_of_year y + _JEWISH_SDN_OFFSET) mod 7
               = (tishrei1_of_year y mod 7 + 6) mod 7).
  { unfold _JEWISH_SDN_OFFSET. rewrite Zplus_mod_idemp_l.
    replace (tishrei1_of_year y + 347997) with (tishrei1_of_year y + 6 + 49713 * 7) by lia.
    apply Z.mod_add. lia. }
  rewrite Hs in Hin.
  pose proof (Z.mod_pos_bound (tishrei1_of_year y) 7 ltac:(lia)) as Hr.
  remember (tishrei1_of_year y mod 7) as r eqn:Er. clear Er Hs.
  cases_below Hr; cbn in Hd, Hin; try discriminate; intuition lia.
Qed.

Lemma lo_adu_rosh_witness :
  exists (date : JewishDate) (s : Z),
    JD.init 5774 JD.TISHREI 1 = Ok date
    /\ JD.to_sdn date = Ok s
    /\ s = tishrei1_of_year 5774 + _JEWISH_SDN_OFFSET
    /\ py_in ((s - _JEWISH_SDN_OFFSET) mod 7) [_SUNDAY; _WEDNESDAY; _FRIDAY] = false
    /\ ~ In (s mod 7) [6; 2; 4].
Proof. apply (lo_adu_rosh 5774). lia. Defined.

(* ------------------------------------------------------------------ *)
(** ** The length of a year

    The year that starts at a molad [m] in metonic position [my] runs from
    [_get_first_day_of_year my m] to the first day computed from the molad
    12 or 13 lunations later.  The length depends on the molad only through
    its day of the week and through where its halakim lie between nine
    break points, so it is checked on one representative per interval. *)

Lemma first_day_delayb (my d h : Z) :
  _get_first_day_of_year my {| molad_day := d; halakim := h |}
  = d + delayb (py_in my LEAP_YEARS) (py_in ((my - 1) mod 19) LEAP_YEARS)
          (d mod 7) (19440 <=? h) (9924 <=? h) (16789 <=? h).
Proof.
  unfold _get_first_day_of_year, delayb, Molad.day_of_week.
  cbn [molad_day halakim].
  change _NOON with 19440; change _AM3_11_20 with 9924; change _AM9_32_43 with 16789.
  change _TUESDAY with 2; change _MONDAY with 1.
  change [_WEDNESDAY; _FRIDAY; _SUNDAY] with [3; 5; 0].
  match goal with |- context [if ?c then (_, _) else _] => destruct c end;
    cbv beta iota zeta;
    match goal with |- context [if ?c then _ else _] => destruct c end; lia.
Qed.

Lemma add_lunar_12 (d h : Z) :
  0 <= h < 25920 ->
  Molad.add_lunar_cycles {| molad_day := d; halakim := h |} 12
  = {| molad_day := d + 354 + (if 16404 <=? h then 1 else 0);
       halakim := h + 9516 - (if 16404 <=? h then 25920 else 0) |}.
Proof.
  intro Hh. apply MoladFacts.normalized_total_inj.
  - apply MoladFacts.add_lunar_normalized.
  - unfold Molad.normalized, HALAKIM_PER_DAY; cbn [halakim].
    destruct (Z.leb_spec 16404 h); lia.
  - rewrite MoladFacts.add_lunar_total.
    unfold Molad.total, HALAKIM_PER_LUNAR_CYCLE, HALAKIM_PER_DAY; cbn [molad_day halakim].
    destruct (Z.leb_spec 16404 h); lia.
Qed.

Lemma add_lunar_13 (d h : Z) :
  0 <= h < 25920 ->
  Molad.add_lunar_cycles {| molad_day := d; halakim := h |} 13
  = {| molad_day := d + 383 + (if 2651 <=? h then 1 else 0);
       halakim := h + 23269 - (if 2651 <=? h then 25920 else 0) |}.
Proof.
  intro Hh. apply MoladFacts.normalized_total_inj.
  - apply MoladFacts.add_lunar_normalized.
  - unfold Molad.normalized, HALAKIM_PER_DAY; cbn [halakim].
    destruct (Z.leb_spec 2651 h); lia.
  - rewrite MoladFacts.add_lunar_total.
    unfold Molad.total, HALAKIM_PER_LUNAR_CYCLE, HALAKIM_PER_DAY; cbn [molad_day halakim].
    destruct (Z.leb_spec 2651 h); lia.
Qed.

Lemma year_length_from_abs (my : Z) (m : _Molad) :
  Molad.normalized m ->
  year_length_from my m = year_length_abs my (molad_day m mod 7) (observe (halakim m)).
Proof.
  destruct m as [d h]. unfold Molad.normalized, HALAKIM_PER_DAY. cbn [molad_day halakim].
  intro Hh. unfold year_length_from, year_length_abs, months_in_metonic_year.
  destruct (py_in my LEAP_YEARS) eqn:El.
  - rewrite add_lunar_13 by exact Hh. rewrite !first_day_delayb, El.
    cbn [observe o_n o_a3 o_a9 o_c13 o_n13 o_a3_13 o_a9_13].
    rewrite (Zplus_mod_idemp_l d (383 + (if 2651 <=? h then 1 else 0)) 7).
    replace (d + 383 + (if 2651 <=? h then 1 else 0))
      with (d + (383 + (if 2651 <=? h then 1 else 0))) by lia.
    lia.
  - rewrite add_lunar_12 by exact Hh. rewrite !first_day_delayb, El.
    cbn [observe o_n o_a3 o_a9 o_c12 o_n12 o_a3_12 o_a9_12].
    rewrite (Zplus_mod_idemp_l d (354 + (if 16404 <=? h then 1 else 0)) 7).
    replace (d + 354 + (if 16404 <=? h then 1 else 0))
      with (d + (354 + (if 16404 <=? h then 1 else 0))) by lia.
    lia.
Qed.

Lemma representative_in (h : Z) : In (representative h) representatives.
Proof.
  unfold representative, representatives.
  repeat match goal with |- context [if ?c then _ else _] => destruct c end;
    simpl; tauto.
Qed.

Ltac decide_leb :=
  repeat match goal with
    | |- context [?a <=? ?b] =>
        first [ rewrite (proj2 (Z.leb_le a b)) by lia
              | rewrite (proj2 (Z.leb_gt a b)) by lia ]
    end.

Lemma observe_representative (h : Z) :
  0 <= h < 25920 -> observe h = observe (representative h).
Proof.
  intro Hh. unfold representative.
  repeat match goal with
    | |- context [if ?a <? ?b then _ else _] => destruct (Z.ltb_spec a b)
    end;
    (match goal with |- _ = ?rhs =>
       let v := eval vm_compute in rhs in change rhs with v end);
    unfold observe; cbv zeta; decide_leb; reflexivity.
Qed.

Lemma year_length_check_true : year_length_check = true.
Proof. vm_compute. reflexivity. Qed.

Lemma in_metonic_positions (my : Z) : 0 <= my < 19 -> In my metonic_positions.
Proof. intro H. unfold metonic_positions. cases_below H; simpl; tauto. Qed.

Lemma in_week_days (r : Z) : 0 <= r < 7 -> In r week_days.
Proof. intro H. unfold week_days. cases_below H; simpl; tauto. Qed.

(** Whatever normalized molad starts a year in metonic position [my], the
    year has 353, 354 or 355 days if the position is a common one and 383,
    384 or 385 if it is a leap position. *)
Lemma year_length_from_ok (my : Z) (m : _Molad) :
  0 <= my < 19 -> Molad.normalized m ->
  year_length_ok my (year_length_from my m) = true.
Proof.
  intros Hmy Hn. rewrite year_length_from_abs by exact Hn.
  rewrite observe_representative by exact Hn.
  pose proof year_length_check_true as Hc. unfold year_length_check in Hc.
  rewrite forallb_forall in Hc. specialize (Hc my (in_metonic_positions my Hmy)).
  rewrite forallb_forall in Hc.
  specialize (Hc (molad_day m mod 7)
                 (in_week_days _ (Z.mod_pos_bound (molad_day m) 7 ltac:(lia)))).
  rewrite forallb_forall in Hc.
  apply Hc, representative_in.
Qed.

(* ------------------------------------------------------------------ *)
(** ** The molad of a year *)

Lemma molad_of_metonic_cycle_normalized (c : Z) :
  Molad.normalized (_molad_of_metonic_cycle c).
Proof. apply MoladFacts.add_metonic_normalized. Qed.

Lemma molad_of_metonic_cycle_total (c : Z) :
  Molad.total (_molad_of_metonic_cycle c)
  = _NEW_MOON_OF_CREATION + HALAKIM_PER_METONIC_CYCLE * c.
Proof.
  unfold _molad_of_metonic_cycle.
  rewrite MoladFacts.add_metonic_total. unfold Molad.init.
  rewrite MoladFacts.fix_total. unfold Molad.total. cbn [molad_day halakim]. lia.
Qed.

Lemma molad_of_year_normalized (y : Z) : Molad.normalized (molad_of_year y).
Proof. apply MoladFacts.add_lunar_normalized. Qed.

Lemma molad_of_year_total (y : Z) :
  Molad.total (molad_of_year y)
  = _NEW_MOON_OF_CREATION + HALAKIM_PER_LUNAR_CYCLE * months_before y.
Proof.
  unfold molad_of_year, _find_start_of_year.
  rewrite MoladFacts.add_lunar_total, molad_of_metonic_cycle_total.
  unfold months_before, HALAKIM_PER_METONIC_CYCLE. lia.
Qed.

Lemma tishrei1_of_year_eq (y : Z) :
  tishrei1_of_year y = _get_first_day_of_year ((y - 1) mod 19) (molad_of_year y).
Proof. reflexivity. Qed.

Ltac closed_term k :=
  tryif (match k with context [?v] => is_var v end) then fail else idtac.

(** Evaluate the table lookups whose index is a numeral. *)
Ltac calc_tables :=
  repeat match goal with
    | |- context [nth (Z.to_nat ?k) _YEAR_OFFSET 0] =>
        closed_term k;
        let v := eval vm_compute in (nth (Z.to_nat k) _YEAR_OFFSET 0) in
        change (nth (Z.to_nat k) _YEAR_OFFSET 0) with v
    | |- context [months_in_metonic_year ?k] =>
        closed_term k;
        let v := eval vm_compute in (months_in_metonic_year k) in
        change (months_in_metonic_year k) with v
    end.

Lemma months_before_succ (y : Z) :
  months_before (y + 1)
  = months_before y + months_in_metonic_year ((y - 1) mod 19).
Proof.
  unfold months_before.
  pose proof (Z.div_mod (y - 1) 19 ltac:(lia)) as Hdm.
  pose proof (Z.mod_pos_bound (y - 1) 19 ltac:(lia)) as Hr.
  remember ((y - 1) / 19) as q eqn:Eq. remember ((y - 1) mod 19) as r eqn:Er.
  replace (y + 1 - 1) with (y - 1 + 1) by lia. rewrite Hdm.
  assert (Hcase : r = 18 \/ r < 18) by lia. destruct Hcase as [-> | Hlt].
  - replace (19 * q + 18 + 1) with (0 + (q + 1) * 19) by lia.
    rewrite Z.div_add, Z.mod_add by lia.
    change (0 / 19) with 0; change (0 mod 19) with 0. calc_tables. lia.
  - replace (19 * q + r + 1) with ((r + 1) + q * 19) by lia.
    rewrite Z.div_add, Z.mod_add by lia.
    rewrite (Z.div_small (r + 1) 19), (Z.mod_small (r + 1) 19) by lia.
    clear Hdm Eq Er. cases_below Hr; try lia; calc_tables; lia.
Qed.

Lemma metonic_position_succ (y : Z) :
  ((y - 1) mod 19 + 1) mod 19 = (y + 1 - 1) mod 19.
Proof. rewrite Zplus_mod_idemp_l. f_equal. lia. Qed.

(** The molad that [to_sdn] and [from_sdn] reach by adding the months of a
    year is the molad of the next year. *)
Lemma molad_of_next_year (y : Z) :
  Molad.add_lunar_cycles (molad_of_year y) (months_in_metonic_year ((y - 1) mod 19))
  = molad_of_year (y + 1).
Proof.
  apply MoladFacts.normalized_total_inj.
  - apply MoladFacts.add_lunar_normalized.
  - apply molad_of_year_normalized.
  - rewrite MoladFacts.add_lunar_total, !molad_of_year_total, months_before_succ. lia.
Qed.

Lemma next_tishrei1_eq (y : Z) : next_tishrei1 y = tishrei1_of_year (y + 1).
Proof.
  unfold next_tishrei1. rewrite molad_of_next_year, metonic_position_succ.
  reflexivity.
Qed.

Lemma year_length_eq (y : Z) :
  year_length y = year_length_from ((y - 1) mod 19) (molad_of_year y).
Proof. reflexivity. Qed.

Lemma is_leap_year_eq (y : Z) : is_leap_year y = py_in ((y - 1) mod 19) LEAP_YEARS.
Proof. reflexivity. Qed.

(** Every year has one of the six lengths of the Jewish calendar. *)
Lemma year_length_cases (y : Z) :
  (is_leap_year y = false
   /\ (year_length y = 353 \/ year_length y = 354 \/ year_length y = 355))
  \/ (is_leap_year y = true
      /\ (year_length y = 383 \/ year_length y = 384 \/ year_length y = 385)).
Proof.
  pose proof (year_length_from_ok ((y - 1) mod 19) (molad_of_year y)
                (Z.mod_pos_bound (y - 1) 19 ltac:(lia)) (molad_of_year_normalized y)) as H.
  rewrite <- year_length_eq in H. unfold year_length_ok in H.
  rewrite <- is_leap_year_eq in H.
  destruct (is_leap_year y); [right | left]; (split; [reflexivity|]);
    apply py_in_In in H; simpl in H; intuition lia.
Qed.

Lemma tishrei1_of_year_succ (y : Z) :
  tishrei1_of_year (y + 1) = tishrei1_of_year y + year_length y.
Proof. unfold year_length. rewrite next_tishrei1_eq. lia. Qed.

Lemma tishrei1_near_molad (y : Z) :
  molad_day (molad_of_year y) <= tishrei1_of_year y <= molad_day (molad_of_year y) + 2.
Proof. rewrite tishrei1_of_year_eq. apply first_day_delay. Qed.

Lemma months_in_metonic_year_cases (p : Z) :
  months_in_metonic_year p = 12 \/ months_in_metonic_year p = 13.
Proof. unfold months_in_metonic_year. destruct (py_in p LEAP_YEARS); auto. Qed.

Lemma molad_day_succ (y : Z) :
  molad_day (molad_of_year y) + 354 <= molad_day (molad_of_year (y + 1))
  <= molad_day (molad_of_year y) + 384.
Proof.
  pose proof (MoladFacts.normalized_day_bounds _ (molad_of_year_normalized y)) as Ha.
  pose proof (MoladFacts.normalized_day_bounds _ (molad_of_year_normalized (y + 1))) as Hb.
  rewrite !molad_of_year_total, months_before_succ in *.
  unfold HALAKIM_PER_LUNAR_CYCLE, HALAKIM_PER_DAY, _NEW_MOON_OF_CREATION in *.
  destruct (months_in_metonic_year_cases ((y - 1) mod 19)) as [E|E]; rewrite E in *; lia.
Qed.

Lemma molad_day_mono (a b : Z) :
  a <= b ->
  molad_day (molad_of_year a) + 354 * (b - a) <= molad_day (molad_of_year b).
Proof.
  intro Hab. replace b with (a + Z.of_nat (Z.to_nat (b - a))) by lia.
  generalize (Z.to_nat (b - a)) as n. clear b Hab.
  induction n as [|n IH]; [rewrite Z.add_0_r; lia|].
  replace (a + Z.of_nat (S n)) with (a + Z.of_nat n + 1) by lia.
  pose proof (molad_day_succ (a + Z.of_nat n)). lia.
Qed.

Lemma tishrei1_mono (a b : Z) :
  a <= b -> tishrei1_of_year a + 353 * (b - a) <= tishrei1_of_year b.
Proof.
  intro Hab. replace b with (a + Z.of_nat (Z.to_nat (b - a))) by lia.
  generalize (Z.to_nat (b - a)) as n. clear b Hab.
  induction n as [|n IH]; [rewrite Z.add_0_r; lia|].
  replace (a + Z.of_nat (S n)) with (a + Z.of_nat n + 1) by lia.
  rewrite tishrei1_of_year_succ.
  destruct (year_length_cases (a + Z.of_nat n)) as [[_ H]|[_ H]]; lia.
Qed.

Lemma tishrei1_of_year_1 : tishrei1_of_year 1 = 1.
Proof. reflexivity. Qed.

Lemma molad_day_year_1 : molad_day (molad_of_year 1) = 1.
Proof. reflexivity. Qed.

Lemma tishrei1_positive (y : Z) : 1 <= y -> 1 <= tishrei1_of_year y.
Proof.
  intro Hy. pose proof (tishrei1_mono 1 y Hy). rewrite tishrei1_of_year_1 in *. lia.
Qed.

(* ------------------------------------------------------------------ *)
(** ** The search for a nearby molad of Tishrei *)

Lemma cycle_position (c my : Z) :
  0 <= my < 19 ->
  (19 * c + my + 1 - 1) / 19 = c /\ (19 * c + my + 1 - 1) mod 19 = my.
Proof.
  intro H. replace (19 * c + my + 1 - 1) with (my + c * 19) by lia.
  rewrite Z.div_add, Z.mod_add, Z.div_small, Z.mod_small by lia. lia.
Qed.

Lemma months_before_at (c my : Z) :
  0 <= my < 19 ->
  months_before (19 * c + my + 1) = 235 * c + nth (Z.to_nat my) _YEAR_OFFSET 0.
Proof.
  intro H. unfold months_before.
  destruct (cycle_position c my H) as [-> ->]. reflexivity.
Qed.

Lemma months_before_cycle_start (c : Z) : months_before (19 * c + 1) = 235 * c.
Proof.
  replace (19 * c + 1) with (19 * c + 0 + 1) by lia.
  rewrite months_before_at by lia. calc_tables. lia.
Qed.

Lemma months_before_cycle_last (c : Z) : months_before (19 * c + 19) = 235 * c + 222.
Proof.
  replace (19 * c + 19) with (19 * c + 18 + 1) by lia.
  rewrite months_before_at by lia. calc_tables. lia.
Qed.

Lemma molad_of_cycle_start (c : Z) :
  _molad_of_metonic_cycle c = molad_of_year (19 * c + 1).
Proof.
  apply MoladFacts.normalized_total_inj.
  - apply molad_of_metonic_cycle_normalized.
  - apply molad_of_year_normalized.
  - rewrite molad_of_metonic_cycle_total, molad_of_year_total.
    rewrite months_before_cycle_start.
    unfold HALAKIM_PER_METONIC_CYCLE. lia.
Qed.

Lemma next_cycle_start (c : Z) :
  Molad.add_metonic_cycles (molad_of_year (19 * c + 1)) 1
  = molad_of_year (19 * (c + 1) + 1).
Proof.
  rewrite <- !molad_of_cycle_start.
  apply MoladFacts.normalized_total_inj.
  - apply MoladFacts.add_metonic_normalized.
  - apply molad_of_metonic_cycle_normalized.
  - rewrite MoladFacts.add_metonic_total, !molad_of_metonic_cycle_total. lia.
Qed.

(** A metonic cycle is 6939 days and a fraction; its first 18 years are
    6555 days and a fraction. *)
Lemma cycle_start_bounds (c : Z) :
  let t := 31524 + 179876755 * c in
  25920 * molad_day_of_year (19 * c + 1) <= t
  < 25920 * molad_day_of_year (19 * c + 1) + 25920.
Proof.
  pose proof (MoladFacts.normalized_day_bounds _ (molad_of_year_normalized (19 * c + 1))) as H.
  rewrite molad_of_year_total, months_before_cycle_start in H.
  unfold HALAKIM_PER_LUNAR_CYCLE, HALAKIM_PER_DAY, _NEW_MOON_OF_CREATION in H.
  cbv zeta. lia.
Qed.

Lemma cycle_last_bounds (c : Z) :
  let t := 31524 + 179876755 * c + 169926126 in
  25920 * molad_day_of_year (19 * c + 19) <= t
  < 25920 * molad_day_of_year (19 * c + 19) + 25920.
Proof.
  pose proof (MoladFacts.normalized_day_bounds _ (molad_of_year_normalized (19 * c + 19))) as H.
  rewrite molad_of_year_total, months_before_cycle_last in H.
  unfold HALAKIM_PER_LUNAR_CYCLE, HALAKIM_PER_DAY, _NEW_MOON_OF_CREATION in H.
  cbv zeta. lia.
Qed.

Lemma cycle_loop_spec (x : Z) (f : nat) :
  forall c : Z,
    x - 6630 - molad_day_of_year (19 * c + 1) <= 6939 * Z.of_nat f ->
    exists c' : Z,
      cycle_loop (S f) x c (molad_of_year (19 * c + 1))
      = Some (c', molad_of_year (19 * c' + 1))
      /\ c <= c'
      /\ x - 6630 <= molad_day_of_year (19 * c' + 1)
      /\ (c' = c \/ molad_day_of_year (19 * (c' - 1) + 1) < x - 6630).
Proof.
  induction f as [|f IH]; intros c Hf.
  - exists c. cbn [cycle_loop].
    replace (molad_day_of_year (19 * c + 1) <? x - 6940 + 310) with false by lia.
    repeat split; lia.
  - change (cycle_loop (S (S f)) x c (molad_of_year (19 * c + 1)))
      with (if molad_day_of_year (19 * c + 1) <? x - 6940 + 310
            then cycle_loop (S f) x (c + 1)
                   (Molad.add_metonic_cycles (molad_of_year (19 * c + 1)) 1)
            else Some (c, molad_of_year (19 * c + 1))).
    destruct (Z.ltb_spec (molad_day_of_year (19 * c + 1)) (x - 6940 + 310)) as [Hlt|Hge].
    + rewrite next_cycle_start.
      pose proof (cycle_start_bounds c) as Hc.
      pose proof (cycle_start_bounds (c + 1)) as Hc1. cbv zeta in Hc, Hc1.
      destruct (IH (c + 1)) as [c' [He [Hle [Hx Hprev]]]]; [lia|].
      exists c'. split; [exact He|]. split; [lia|]. split; [exact Hx|].
      right. destruct Hprev as [-> | Hp]; [|exact Hp].
      replace (c + 1 - 1) with c by lia. lia.
    + exists c. repeat split; lia.
Qed.

Lemma year_loop_spec (x c : Z) (n : nat) :
  forall my : Z,
    0 <= my -> my + Z.of_nat n = 18 ->
    (my = 0 \/ molad_day_of_year (19 * c + my) <= x - 74) ->
    exists my' : Z,
      year_loop n x my (molad_of_year (19 * c + my + 1))
      = (my', molad_of_year (19 * c + my' + 1))
      /\ my <= my' <= 18
      /\ (my' < 18 -> x - 74 < molad_day_of_year (19 * c + my' + 1))
      /\ (my' = 0 \/ molad_day_of_year (19 * c + my') <= x - 74).
Proof.
  induction n as [|n IH]; intros my H0 Hn Hprev.
  - exists my. cbn [year_loop]. repeat split; try lia; exact Hprev.
  - cbn [year_loop]. replace (my <? 18) with true by lia.
    destruct (Z.gtb_spec (molad_day_of_year (19 * c + my + 1)) (x - 74)) as [Hgt|Hle].
    + exists my. repeat split; try lia; exact Hprev.
    + pose proof (molad_of_next_year (19 * c + my + 1)) as Hnext.
      destruct (cycle_position c my ltac:(lia)) as [_ Hpos]. rewrite Hpos in Hnext.
      rewrite Hnext.
      replace (19 * c + my + 1 + 1) with (19 * c + (my + 1) + 1) by lia.
      destruct (IH (my + 1)) as [my' [He [Hr [Hbreak Hp]]]]; try lia.
      { right. replace (19 * c + (my + 1)) with (19 * c + my + 1) by lia. exact Hle. }
      exists my'. split; [exact He|]. repeat split; try lia; assumption.
Qed.

(** What [_find_nearby_tishrei_molad] returns for a day [x]: the molad of
    a year [y'] that lies at most 75 days before [x], such that the molad
    of the year before lies at least 73 days before [x]. *)
Lemma find_nearby_spec (fuel : nat) (x : Z) :
  -310 <= x -> (0 < fuel)%nat -> x + 308 <= 6939 * Z.of_nat fuel ->
  exists c my : Z,
    _find_nearby_tishrei_molad fuel x = Some (c, my, molad_of_year (19 * c + my + 1))
    /\ 0 <= c /\ 0 <= my <= 18
    /\ x <= molad_day_of_year (19 * c + my + 1) + 75
    /\ (19 * c + my + 1 = 1 \/ molad_day_of_year (19 * c + my) <= x - 73).
Proof.
  intros Hx Hpos Hfuel. unfold _find_nearby_tishrei_molad.
  destruct fuel as [|f]; [lia|].
  set (c0 := (x + 310) / 6940).
  assert (Hc0 : 0 <= c0) by (apply Z.div_pos; lia).
  assert (Hest : 6940 * c0 <= x + 310).
  { unfold c0. apply Z.mul_div_le. lia. }
  clearbody c0.
  rewrite molad_of_cycle_start.
  pose proof (cycle_start_bounds c0) as Hb0. cbv zeta in Hb0.
  destruct (cycle_loop_spec x f c0) as [c [Hloop [Hle [Hreach Hprev]]]]; [lia|].
  rewrite Hloop.
  destruct (year_loop_spec x c 18 0) as [my [Hy [Hr [Hbreak Hp]]]]; try lia.
  replace (19 * c + 0 + 1) with (19 * c + 1) in Hy by lia.
  rewrite Hy. exists c, my. split; [reflexivity|].
  split; [lia|]. split; [lia|].
  pose proof (cycle_start_bounds c) as Hbc. cbv zeta in Hbc.
  split.
  - assert (Hcase : my < 18 \/ my = 18) by lia. destruct Hcase as [Hlt | ->].
    + specialize (Hbreak Hlt). lia.
    + pose proof (cycle_last_bounds c) as Hl. cbv zeta in Hl.
      replace (19 * c + 18 + 1) with (19 * c + 19) by lia. lia.
  - destruct Hp as [-> | Hp]; [|right; lia].
    destruct Hprev as [-> | Hprev].
    + assert (Hcase : c0 = 0 \/ 1 <= c0) by lia. destruct Hcase as [-> | H1]; [left; lia|].
      right. pose proof (cycle_last_bounds (c0 - 1)) as Hl. cbv zeta in Hl.
      replace (19 * (c0 - 1) + 19) with (19 * c0 + 0) in Hl by lia. lia.
    + right. pose proof (cycle_last_bounds (c - 1)) as Hl. cbv zeta in Hl.
      pose proof (cycle_start_bounds (c - 1)) as Hs. cbv zeta in Hs.
      replace (19 * (c - 1) + 19) with (19 * c + 0) in Hl by lia. lia.
Qed.

(* ------------------------------------------------------------------ *)
(** ** Valid dates

    The calendar the conversions implement: Tishrei has 30 days, Cheshvan 30
    in a year of 355 or 385 days and 29 otherwise, Kislev 29 in a year of 353
    or 383 days and 30 otherwise, then Tevet 29, Shevat 30, Adar I 30 (leap
    years only; the month does not exist in a common year), Adar or Adar II
    29, Nisan 30, Iyar 29, Sivan 30, Tamuz 29, Av 30, Elul 29. *)

Ltac calc_closed :=
  repeat match goal with
    | |- context [month_length_of ?b ?l ?m] =>
        closed_term b; closed_term l; closed_term m;
        let v := eval vm_compute in (month_length_of b l m) in
        change (month_length_of b l m) with v
    | |- context [days_before_month_of ?b ?l ?m] =>
        closed_term b; closed_term l; closed_term m;
        let v := eval vm_compute in (days_before_month_of b l m) in
        change (days_before_month_of b l m) with v
    | |- context [py_in ?a ?l] =>
        closed_term a; closed_term l;
        let v := eval vm_compute in (py_in a l) in
        change (py_in a l) with v
    | |- context [?a =? ?b] =>
        closed_term a; closed_term b;
        let v := eval vm_compute in (a =? b) in
        change (a =? b) with v
    end;
  cbv beta iota.

(** The six kinds of year, with the year length and the leap flag replaced
    by their values. *)
Ltac year_kinds y :=
  let Hl := fresh "Hleap" in
  let Hn := fresh "Hlen" in
  destruct (year_length_cases y) as [[Hl [Hn|[Hn|Hn]]]|[Hl [Hn|[Hn|Hn]]]].

Lemma month_length_le_30 (y m : Z) : month_length y m <= 30.
Proof.
  unfold month_length, month_length_of.
  destruct m as [|p|p]; try lia.
  repeat (destruct p as [p|p|]; try lia);
    repeat match goal with |- context [if ?c then _ else _] => destruct c end; lia.
Qed.

Ltac month_cases m :=
  let H := fresh "Hmc" in
  assert (H : 0 <= m < 14) by lia; cases_below H; try (exfalso; lia).

(** For a valid date [to_sdn] counts days from Tishrei 1 of the year: the
    lengths of the months before, and the day of the month. *)
Lemma to_sdn_valid (y m d : Z) :
  1 <= y -> 1 <= m <= 13 -> 1 <= d <= month_length y m ->
  JD.to_sdn {| year := y; month := m; day := d; isLeapYear := is_leap_year y |}
  = Ok (tishrei1_of_year y + days_before_month y m + d - 1 + _JEWISH_SDN_OFFSET).
Proof.
  intros Hy Hm Hd.
  pose proof (month_length_le_30 y m) as H30.
  rewrite to_sdn_constructed by lia.
  unfold to_sdn_body, month_length, days_before_month in *.
  pose proof (tishrei1_of_year_succ y) as Hnt. rewrite <- next_tishrei1_eq in Hnt.
  rewrite Hnt.
  replace (tishrei1_of_year y + year_length y - tishrei1_of_year y)
    with (year_length y) by lia.
  generalize dependent (tishrei1_of_year y). intros t _.
  year_kinds y; rewrite Hleap, Hlen in *; clear Hleap Hlen;
    month_cases m; revert Hd; cbn [JD.dict_get]; calc_closed; cbv iota;
    intro Hd; try (exfalso; lia); f_equal; lia.
Qed.

(** Within a year, later months start after earlier months end. *)
Lemma days_before_month_mono (y ma mb : Z) :
  1 <= ma -> ma < mb -> mb <= 13 ->
  days_before_month y ma + month_length y ma <= days_before_month y mb.
Proof.
  intros Ha Hab Hb. unfold days_before_month, month_length.
  year_kinds y; rewrite Hleap, Hlen; clear Hleap Hlen;
    month_cases ma; month_cases mb; calc_closed; lia.
Qed.

Lemma days_in_year (y m : Z) :
  1 <= m <= 13 ->
  0 <= days_before_month y m
  /\ days_before_month y m + month_length y m <= year_length y.
Proof.
  intros Hm. unfold days_before_month, month_length.
  year_kinds y; rewrite Hleap, Hlen; clear Hleap Hlen;
    month_cases m; calc_closed; lia.
Qed.

Lemma to_sdn_valid_date (a : JewishDate) :
  valid_date a ->
  JD.to_sdn a
  = Ok (tishrei1_of_year (year a) + days_before_month (year a) (month a)
        + day a - 1 + _JEWISH_SDN_OFFSET).
Proof.
  destruct a as [y m d l]. unfold valid_date. cbn [year month day isLeapYear].
  intros [Hy [Hm [Hd ->]]]. apply to_sdn_valid; assumption.
Qed.

Lemma to_sdn_strictly_increasing (a b : JewishDate) :
  valid_date a -> valid_date b -> date_lt a b ->
  exists sa sb : Z,
    JD.to_sdn a = Ok sa /\ JD.to_sdn b = Ok sb /\ sa < sb.
Proof.
  intros Ha Hb Hlt.
  rewrite (to_sdn_valid_date a Ha), (to_sdn_valid_date b Hb).
  eexists; eexists. split; [reflexivity|]. split; [reflexivity|].
  destruct Ha as [Hya [Hma [Hda _]]]. destruct Hb as [Hyb [Hmb [Hdb _]]].
  pose proof (days_in_year (year a) (month a) Hma) as Hia.
  pose proof (days_in_year (year b) (month b) Hmb) as Hib.
  destruct Hlt as [Hy | [Hy [Hm | [Hm Hd]]]].
  - pose proof (tishrei1_mono (year a + 1) (year b) ltac:(lia)) as Hmono.
    rewrite tishrei1_of_year_succ in Hmono. lia.
  - rewrite Hy in *.
    pose proof (days_before_month_mono (year b) (month a) (month b)
                  ltac:(lia) Hm ltac:(lia)).
    lia.
  - rewrite Hy, Hm in *. lia.
Qed.

(** C4: [to_sdn] is strictly increasing on valid dates in chronological
    order (by year, then month, then day). *)
Theorem to_sdn_monotone :
  forall a b : JewishDate,
    valid_date a -> valid_date b -> date_lt a b ->
    exists sa sb : Z,
      JD.to_sdn a = Ok sa /\ JD.to_sdn b = Ok sb /\ sa < sb.
Proof. exact to_sdn_strictly_increasing. Qed.

Lemma to_sdn_monotone_witness :
  exists sa sb : Z,
    JD.to_sdn {| year := 5774; month := 13; day := 29; isLeapYear := true |} = Ok sa
    /\ JD.to_sdn {| year := 5775; month := 1; day := 1; isLeapYear := false |} = Ok sb
    /\ sa < sb.
Proof.
  apply to_sdn_monotone.
  - unfold valid_date; cbn [year month day isLeapYear]; vm_compute; intuition discriminate.
  - unfold valid_date; cbn [year month day isLeapYear]; vm_compute; intuition discriminate.
  - left; cbn; lia.
Defined.

(* ------------------------------------------------------------------ *)
(** ** [from_sdn] is a right inverse of [to_sdn] *)

Lemma good_init (y m d x : Z) :
  1 <= y -> 1 <= m <= 13 -> 1 <= d <= month_length y m ->
  tishrei1_of_year y + days_before_month y m + d - 1 = x ->
  good_result (x + _JEWISH_SDN_OFFSET) (JD.init y m d).
Proof.
  intros Hy Hm Hd Hx. pose proof (month_length_le_30 y m) as H30.
  exists {| year := y; month := m; day := d; isLeapYear := is_leap_year y |}.
  split; [apply init_valid; lia|].
  split; [unfold valid_date; cbn [year month day isLeapYear]; repeat split; lia|].
  rewrite to_sdn_valid by assumption. f_equal. lia.
Qed.

Ltac unfold_months :=
  unfold JD.TISHREI, JD.CHESHVAN, JD.KISLEV, JD.TEVET, JD.SHEVAT, JD.ADAR_I,
    JD.ADAR_II, JD.NISAN, JD.IYAR, JD.SIVAN, JD.TAMUZ, JD.AV, JD.ELUL.

Ltac finish_init y :=
  apply good_init;
  unfold_months;
  unfold month_length, days_before_month;
  match goal with Hl : is_leap_year y = _, Hn : year_length y = _ |- _ =>
    rewrite ?Hl, ?Hn end;
  calc_closed; lia.

Lemma cheshvan_or_kislev_good (y x : Z) :
  1 <= y ->
  tishrei1_of_year y + 30 <= x
  < tishrei1_of_year y + 30 + month_length y 2 + month_length y 3 ->
  good_result (x + _JEWISH_SDN_OFFSET)
    (JD.cheshvan_or_kislev y x (tishrei1_of_year y) (tishrei1_of_year (y + 1))).
Proof.
  intros Hy Hx. unfold JD.cheshvan_or_kislev. cbv zeta.
  rewrite tishrei1_of_year_succ.
  replace (tishrei1_of_year y + year_length y - tishrei1_of_year y)
    with (year_length y) by lia.
  unfold month_length in Hx.
  year_kinds y; rewrite Hleap, Hlen in Hx; rewrite Hlen; revert Hx; calc_closed;
    intro Hx;
    match goal with |- context [if ?a <=? ?b then _ else _] =>
      destruct (Z.leb_spec a b) end;
    finish_init y.
Qed.

Lemma first_day_at (c my : Z) :
  0 <= my <= 18 ->
  _get_first_day_of_year my (molad_of_year (19 * c + my + 1))
  = tishrei1_of_year (19 * c + my + 1).
Proof.
  intro H. rewrite tishrei1_of_year_eq.
  destruct (cycle_position c my ltac:(lia)) as [_ ->]. reflexivity.
Qed.

(** The start-of-year branch: the search found the molad of the year that
    contains the day. *)
Lemma from_sdn_start_of_year (y my x : Z) :
  1 <= y -> my = (y - 1) mod 19 ->
  tishrei1_of_year y <= x <= tishrei1_of_year y + 77 ->
  good_result (x + _JEWISH_SDN_OFFSET)
    (if x <? tishrei1_of_year y + 59 then
       if x <? tishrei1_of_year y + 30
       then JD.init y JD.TISHREI (x - tishrei1_of_year y + 1)
       else JD.init y JD.CHESHVAN (x - tishrei1_of_year y - 29)
     else
       JD.cheshvan_or_kislev y x (tishrei1_of_year y)
         (_get_first_day_of_year ((my + 1) mod 19)
            (Molad.add_lunar_cycles (molad_of_year y) (months_in_metonic_year my)))).
Proof.
  intros Hy -> Hx.
  change (_get_first_day_of_year (((y - 1) mod 19 + 1) mod 19)
            (Molad.add_lunar_cycles (molad_of_year y)
               (months_in_metonic_year ((y - 1) mod 19))))
    with (next_tishrei1 y).
  rewrite next_tishrei1_eq.
  destruct (Z.ltb_spec x (tishrei1_of_year y + 59)) as [H59|H59].
  - destruct (Z.ltb_spec x (tishrei1_of_year y + 30)) as [H30|H30].
    + year_kinds y; finish_init y.
    + year_kinds y; finish_init y.
  - apply cheshvan_or_kislev_good; [exact Hy|].
    unfold month_length. year_kinds y; rewrite Hleap, Hlen; calc_closed; lia.
Qed.

(** The end-of-year branch before its fallback: the months from Tevet to
    Elul, counted back from the first day of the next year. *)
Lemma from_sdn_end_of_year (y x : Z) (fallback : outcome JewishDate) :
  1 <= y ->
  tishrei1_of_year y + 71 <= x < tishrei1_of_year (y + 1) ->
  (x < tishrei1_of_year y + 30 + month_length y 2 + month_length y 3 ->
   good_result (x + _JEWISH_SDN_OFFSET) fallback) ->
  good_result (x + _JEWISH_SDN_OFFSET)
    (let nextTishrei1 := tishrei1_of_year (y + 1) in
     if x >=? nextTishrei1 - 177 then
       match JD.last_months x nextTishrei1
               [(JD.ELUL, 30); (JD.AV, 60); (JD.TAMUZ, 89); (JD.SIVAN, 119);
                (JD.IYAR, 148); (JD.NISAN, 178)] 0 with
       | (m, Some d) => JD.init y m d
       | (_, None) => Raise UnboundLocalError
       end
     else
       let d := x - nextTishrei1 + 207 in
       if d >? 0 then JD.init y JD.ADAR_II d else
       let leap := is_leap_year y in
       let d := if leap then d + 30 else d in
       if leap && (d >? 0) then JD.init y JD.ADAR_I d else
       let d := d + 30 in
       if d >? 0 then JD.init y JD.SHEVAT d else
       let d := d + 29 in
       if d >? 0 then JD.init y JD.TEVET d else fallback).
Proof.
  intros Hy Hx Hfb. cbv zeta.
  rewrite tishrei1_of_year_succ in *.
  unfold month_length in Hfb.
  destruct (Z.geb_spec x (tishrei1_of_year y + year_length y - 177)) as [H177|H177].
  - cbn [JD.last_months].
    repeat match goal with |- context [if ?a >? ?b then _ else _] =>
      destruct (Z.gtb_spec a b) end;
      try (exfalso; lia); year_kinds y;
      finish_init y.
  - year_kinds y; rewrite Hleap; cbv iota; cbn [andb];
      repeat match goal with |- context [if ?a >? ?b then _ else _] =>
        destruct (Z.gtb_spec a b) end;
      first [ finish_init y
            | apply Hfb; rewrite Hleap, Hlen; calc_closed; lia ].
Qed.

(** For every SDN after the epoch offset and enough fuel for the cycle
    loop, [from_sdn] returns a valid date whose SDN is the input. *)
Lemma from_sdn_good (fuel : nat) (sdn : Z) :
  _JEWISH_SDN_OFFSET < sdn -> sdn <= 6939 * Z.of_nat fuel ->
  good_result sdn (JD.from_sdn fuel sdn).
Proof.
  intros Hs Hfuel. unfold JD.from_sdn.
  replace (sdn <=? _JEWISH_SDN_OFFSET) with false by lia.
  cbv zeta.
  replace sdn with (sdn - _JEWISH_SDN_OFFSET + _JEWISH_SDN_OFFSET) at 1 by lia.
  assert (Hx1 : 1 <= sdn - _JEWISH_SDN_OFFSET) by lia.
  assert (Hxf : sdn - _JEWISH_SDN_OFFSET + 308 <= 6939 * Z.of_nat fuel)
    by (unfold _JEWISH_SDN_OFFSET; lia).
  assert (Hpos : (0 < fuel)%nat) by lia.
  generalize dependent (sdn - _JEWISH_SDN_OFFSET). clear Hs Hfuel sdn.
  intros x Hx1 Hxf.
  destruct (find_nearby_spec fuel x ltac:(lia) Hpos Hxf)
    as (c & my & Hfind & Hc & Hmy & Hup & Hlow).
  rewrite Hfind. rewrite first_day_at by exact Hmy.
  pose proof (tishrei1_near_molad (19 * c + my + 1)) as Hnear.
  destruct (Z.geb_spec x (tishrei1_of_year (19 * c + my + 1))) as [Hge|Hlt].
  - replace (c * 19 + my + 1) with (19 * c + my + 1) by lia.
    apply from_sdn_start_of_year; [lia | | lia].
    symmetry. apply cycle_position. lia.
  - assert (Hy1 : 19 * c + my + 1 <> 1).
    { intro E. rewrite E in Hlt. rewrite tishrei1_of_year_1 in Hlt. lia. }
    destruct Hlow as [Hlow|Hlow]; [contradiction|].
    replace (c * 19 + my) with (19 * c + my) by lia.
    replace (19 * c + my + 1) with (19 * c + my + 1) in * by lia.
    remember (19 * c + my) as y eqn:Ey.
    assert (Hy : 1 <= y) by lia.
    pose proof (tishrei1_near_molad y) as Hneary.
    apply from_sdn_end_of_year; [exact Hy | lia |].
    intro Hrange.
    pose proof (molad_day_succ y) as Hsucc.
    pose proof (molad_day_mono 1 y Hy) as Hm1. rewrite molad_day_year_1 in Hm1.
    destruct (find_nearby_spec fuel (molad_day_of_year (y + 1) - 365))
      as (c2 & my2 & Hfind2 & Hc2 & Hmy2 & Hup2 & Hlow2); [lia | exact Hpos | lia |].
    rewrite Hfind2. rewrite first_day_at by exact Hmy2.
    assert (Hsame : 19 * c2 + my2 + 1 = y).
    { assert (Hcmp : 19 * c2 + my2 + 1 <= y - 1 \/ 19 * c2 + my2 + 1 = y
                     \/ y + 1 <= 19 * c2 + my2 + 1) by lia.
      destruct Hcmp as [Hlo | [He | Hhi]]; [exfalso | exact He | exfalso].
      - pose proof (molad_day_mono (19 * c2 + my2 + 1) (y + 1) ltac:(lia)). lia.
      - destruct Hlow2 as [Hlow2|Hlow2]; [lia|].
        pose proof (molad_day_mono y (19 * c2 + my2) ltac:(lia)). lia. }
    rewrite Hsame.
    apply cheshvan_or_kislev_good; [exact Hy | lia].
Qed.

(* ------------------------------------------------------------------ *)
(** ** Round trips *)

Lemma valid_date_trichotomy (a b : JewishDate) :
  valid_date a -> valid_date b -> a = b \/ date_lt a b \/ date_lt b a.
Proof.
  destruct a as [ya ma da la], b as [yb mb db lb].
  unfold valid_date, date_lt. cbn [year month day isLeapYear].
  intros (_ & _ & _ & ->) (_ & _ & _ & ->).
  assert (Hc : ya < yb \/ yb < ya
               \/ (ya = yb /\ (ma < mb \/ mb < ma
                               \/ (ma = mb /\ (da < db \/ db < da \/ da = db)))))
    by lia.
  destruct Hc as [H|[H|[-> [H|[H|[-> [H|[H| ->]]]]]]]]; auto 10.
Qed.

(** [to_sdn] maps different valid dates to different serial day numbers. *)
Lemma to_sdn_injective (a b : JewishDate) (s : Z) :
  valid_date a -> valid_date b ->
  JD.to_sdn a = Ok s -> JD.to_sdn b = Ok s -> a = b.
Proof.
  intros Ha Hb Hsa Hsb.
  destruct (valid_date_trichotomy a b Ha Hb) as [E|[Hlt|Hlt]]; [exact E| |].
  - destruct (to_sdn_strictly_increasing a b Ha Hb Hlt) as (sa & sb & Ea & Eb & Hl).
    rewrite Hsa in Ea. rewrite Hsb in Eb. injection Ea as <-. injection Eb as <-. lia.
  - destruct (to_sdn_strictly_increasing b a Hb Ha Hlt) as (sb & sa & Eb & Ea & Hl).
    rewrite Hsa in Ea. rewrite Hsb in Eb. injection Ea as <-. injection Eb as <-. lia.
Qed.

Lemma to_sdn_after_epoch (a : JewishDate) (s : Z) :
  valid_date a -> JD.to_sdn a = Ok s -> _JEWISH_SDN_OFFSET < s.
Proof.
  intros Ha Hs. rewrite (to_sdn_valid_date a Ha) in Hs. injection Hs as <-.
  destruct Ha as (Hy & Hm & Hd & _).
  pose proof (tishrei1_positive (year a) Hy).
  pose proof (days_in_year (year a) (month a) Hm). lia.
Qed.

(** C1: a date that the constructor accepts and whose day is at most the
    length of its month in its year (a month that the year does not have,
    Adar I of a common year, has length 0) converts to a serial day number,
    and [from_sdn] of that number, with enough fuel for its cycle loop, is
    the original date. *)
Theorem round_trip :
  forall (y m d : Z) (date : JewishDate),
    JD.init y m d = Ok date ->
    d <= month_length y m ->
    exists s : Z,
      JD.to_sdn date = Ok s
      /\ forall fuel : nat,
           s <= 6939 * Z.of_nat fuel -> JD.from_sdn fuel s = Ok date.
Proof.
  intros y m d date Hinit Hlen.
  apply init_ok in Hinit. destruct Hinit as (Hy & Hm & Hd & ->).
  assert (Hv : valid_date {| year := y; month := m; day := d;
                             isLeapYear := is_leap_year y |}).
  { unfold valid_date. cbn [year month day isLeapYear]. repeat split; lia. }
  eexists. split; [apply (to_sdn_valid_date _ Hv)|].
  cbn [year month day]. intros fuel Hfuel.
  pose proof (to_sdn_after_epoch _ _ Hv (to_sdn_valid_date _ Hv)) as Hafter.
  cbn [year month day] in Hafter.
  destruct (from_sdn_good fuel _ Hafter Hfuel) as (date' & Hfrom & Hv' & Hto).
  rewrite Hfrom. f_equal.
  apply (to_sdn_injective _ _ _ Hv' Hv Hto). apply (to_sdn_valid_date _ Hv).
Qed.

Lemma round_trip_witness :
  exists s : Z,
    JD.to_sdn {| year := 5774; month := 3; day := 30; isLeapYear := true |} = Ok s
    /\ forall fuel : nat,
         s <= 6939 * Z.of_nat fuel ->
         JD.from_sdn fuel s
         = Ok {| year := 5774; month := 3; day := 30; isLeapYear := true |}.
Proof.
  apply (round_trip 5774 3 30); [reflexivity | vm_compute; discriminate].
Defined.

(** C10: for every serial day number after the epoch offset, [from_sdn]
    with enough fuel for its cycle loop returns a date; the constructor
    call that ends the conversion does not raise, so the year is at least
    1, the month is in 1..13 and the day in 1..30. *)
Theorem from_sdn_total :
  forall (fuel : nat) (sdn : Z),
    _JEWISH_SDN_OFFSET < sdn -> sdn <= 6939 * Z.of_nat fuel ->
    exists date : JewishDate,
      JD.from_sdn fuel sdn = Ok date
      /\ JD.init (year date) (month date) (day date) = Ok date
      /\ 1 <= year date /\ 1 <= month date <= 13 /\ 1 <= day date <= 30.
Proof.
  intros fuel sdn Hs Hf.
  destruct (from_sdn_good fuel sdn Hs Hf) as (date & Hfrom & Hv & _).
  exists date. split; [exact Hfrom|].
  destruct date as [y m d l]. destruct Hv as (Hy & Hm & Hd & Hl).
  cbn [year month day isLeapYear] in *.
  pose proof (month_length_le_30 y m).
  split; [rewrite init_valid by lia; rewrite Hl; reflexivity|]. lia.
Qed.

Lemma from_sdn_total_witness :
  exists date : JewishDate,
    JD.from_sdn 400 2456541 = Ok date
    /\ JD.init (year date) (month date) (day date) = Ok date
    /\ 1 <= year date /\ 1 <= month date <= 13 /\ 1 <= day date <= 30.
Proof.
  apply (from_sdn_total 400 2456541); [reflexivity | vm_compute; discriminate].
Defined.

(** C2: [from_sdn] raises [InvalidDateError] at the epoch offset, and one
    day later it returns year 1, Tishrei (month 1), day 1. *)
Theorem from_sdn_boundary :
  (forall fuel : nat, JD.from_sdn fuel _JEWISH_SDN_OFFSET = Raise InvalidDateError)
  /\ (forall fuel : nat,
        JD.from_sdn (S fuel) (_JEWISH_SDN_OFFSET + 1)
        = Ok {| year := 1; month := JD.TISHREI; day := 1; isLeapYear := false |})
  /\ JD.init 1 JD.TISHREI 1
     = Ok {| year := 1; month := JD.TISHREI; day := 1; isLeapYear := false |}.
Proof.
  split; [|split].
  - intro fuel. reflexivity.
  - intro fuel. vm_compute. reflexivity.
  - reflexivity.
Qed.

(** C6: [to_sdn] of (5774, 1, 1) is 2456541, the serial day number of
    5 September 2013 (its ordinal 735116 plus the Gregorian offset), and
    [from_sdn] of 2456541 is (5774, 1, 1) again. *)
Theorem rosh_hashanah_5774 :
  JD.init 5774 JD.TISHREI 1
  = Ok {| year := 5774; month := 1; day := 1; isLeapYear := true |}
  /\ JD.to_sdn {| year := 5774; month := 1; day := 1; isLeapYear := true |}
     = Ok 2456541
  /\ toordinal 2013 9 5 + _GREGORIAN_SDN_OFFSET = 2456541
  /\ (forall fuel : nat,
        JD.from_sdn (S fuel) 2456541
        = Ok {| year := 5774; month := 1; day := 1; isLeapYear := true |}).
Proof.
  split; [reflexivity|]. split; [vm_compute; reflexivity|].
  split; [reflexivity|]. intro fuel. vm_compute. reflexivity.
Qed.

(** C7, as the code behaves: for a constructed date with month 6 (Adar I)
    in a common year [to_sdn] does not raise; it returns the serial day
    number of month 7 (Adar) with the same year and day. *)
Theorem to_sdn_adar_i_common_year :
  forall (y d : Z) (date : JewishDate),
    JD.init y JD.ADAR_I d = Ok date ->
    is_leap_year y = false ->
    exists s : Z,
      JD.to_sdn date = Ok s
      /\ JD.to_sdn {| year := y; month := JD.ADAR_II; day := d;
                      isLeapYear := false |} = Ok s.
Proof.
  intros y d date Hinit Hleap.
  apply init_ok in Hinit. destruct Hinit as (Hy & _ & Hd & ->).
  rewrite Hleap. rewrite !to_sdn_unfold. cbn [year month day isLeapYear].
  replace (y <=? 0) with false by lia.
  replace (d <=? 0) with false by lia.
  replace (d >? 30) with false by lia.
  cbn [orb]. unfold to_sdn_body. unfold_months. cbn [JD.dict_get]. calc_closed.
  eexists. split; reflexivity.
Qed.

Lemma to_sdn_adar_i_common_year_witness :
  exists s : Z,
    JD.to_sdn {| year := 5775; month := 6; day := 1; isLeapYear := false |} = Ok s
    /\ JD.to_sdn {| year := 5775; month := JD.ADAR_II; day := 1;
                    isLeapYear := false |} = Ok s.
Proof.
  apply (to_sdn_adar_i_common_year 5775 1); reflexivity.
Defined.

(** C7 as stated fails: month 6 in the common year 5775 gets a serial day
    number, not a domain error. *)
Lemma to_sdn_adar_i_common_year_counterexample :
  ~ (forall (y d : Z) (date : JewishDate),
       JD.init y JD.ADAR_I d = Ok date ->
       is_leap_year y = false ->
       JD.to_sdn date = Raise InvalidDateError).
Proof.
  intro H.
  specialize (H 5775 1 {| year := 5775; month := 6; day := 1; isLeapYear := false |}
                eq_refl eq_refl).
  vm_compute in H. discriminate H.
Qed.

(** C8, as the code behaves: the name of month 7 is "Adar II" whether the
    leap-year flag is set or not; the common-year branch returns the same
    string as the table.  The date itself is not changed. *)
Theorem english_month_name_adar :
  forall (y d : Z) (leap : bool),
    JD.english_month_name
      {| year := y; month := JD.ADAR_II; day := d; isLeapYear := leap |}
    = Ok "Adar II"%string.
Proof. intros y d [|]; reflexivity. Qed.

(* ------------------------------------------------------------------ *)
(** ** Further properties of [jewish/date.py] *)

(** X1: for every year, the first days that [_find_start_of_year] returns
    for that year and for the next are 353, 354 or 355 days apart when the
    year is a common year and 383, 384 or 385 days apart when it is a leap
    year. *)
Theorem year_lengths :
  forall y : Z,
    let '(_, _, _, tishrei1) := _find_start_of_year y in
    let '(_, _, _, nextTishrei1) := _find_start_of_year (y + 1) in
    if is_leap_year y
    then In (nextTishrei1 - tishrei1) [383; 384; 385]
    else In (nextTishrei1 - tishrei1) [353; 354; 355].
Proof.
  intro y.
  change (if is_leap_year y
          then In (tishrei1_of_year (y + 1) - tishrei1_of_year y) [383; 384; 385]
          else In (tishrei1_of_year (y + 1) - tishrei1_of_year y) [353; 354; 355]).
  rewrite tishrei1_of_year_succ.
  replace (tishrei1_of_year y + year_length y - tishrei1_of_year y)
    with (year_length y) by lia.
  year_kinds y; rewrite Hleap, Hlen; simpl; tauto.
Qed.

(** X2: [from_sdn] is a right inverse of [to_sdn]: for every serial day
    number after the epoch offset, the date [from_sdn] returns is valid (its
    day is within the length of its month) and [to_sdn] maps it back to the
    same number. *)
Theorem to_sdn_from_sdn :
  forall (fuel : nat) (sdn : Z),
    _JEWISH_SDN_OFFSET < sdn -> sdn <= 6939 * Z.of_nat fuel ->
    exists date : JewishDate,
      JD.from_sdn fuel sdn = Ok date
      /\ valid_date date
      /\ JD.to_sdn date = Ok sdn.
Proof. exact from_sdn_good. Qed.

Lemma to_sdn_from_sdn_witness :
  exists date : JewishDate,
    JD.from_sdn 400 2457074 = Ok date
    /\ valid_date date
    /\ JD.to_sdn date = Ok 2457074.
Proof.
  apply (to_sdn_from_sdn 400 2457074); [reflexivity | vm_compute; discriminate].
Defined.

(** X3: the round trip is the validity test that the docstring of [to_sdn]
    describes: a constructed date comes back from [from_sdn (to_sdn date)]
    exactly when its day is within the length of its month in its year. *)
Theorem round_trip_iff_valid :
  forall (y m d : Z) (date : JewishDate) (s : Z) (fuel : nat),
    JD.init y m d = Ok date ->
    JD.to_sdn date = Ok s ->
    s <= 6939 * Z.of_nat fuel ->
    (JD.from_sdn fuel s = Ok date <-> d <= month_length y m).
Proof.
  intros y m d date s fuel Hinit Hto Hfuel. split.
  - intro Hfrom.
    assert (Hafter : _JEWISH_SDN_OFFSET < s).
    { destruct (Z.leb_spec s _JEWISH_SDN_OFFSET) as [Hle|Hgt]; [|exact Hgt].
      unfold JD.from_sdn in Hfrom.
      replace (s <=? _JEWISH_SDN_OFFSET) with true in Hfrom by lia.
      discriminate Hfrom. }
    destruct (from_sdn_good fuel s Hafter Hfuel) as (date' & Hfrom' & Hv & _).
    rewrite Hfrom in Hfrom'. injection Hfrom' as <-.
    apply init_ok in Hinit. destruct Hinit as (_ & _ & _ & ->).
    destruct Hv as (_ & _ & Hd & _). cbn [year month day] in Hd. lia.
  - intro Hlen.
    apply init_ok in Hinit. destruct Hinit as (Hy & Hm & Hd & ->).
    assert (Hv : valid_date {| year := y; month := m; day := d;
                               isLeapYear := is_leap_year y |}).
    { unfold valid_date. cbn [year month day isLeapYear]. repeat split; lia. }
    pose proof (to_sdn_after_epoch _ _ Hv Hto) as Hafter.
    destruct (from_sdn_good fuel s Hafter Hfuel) as (date' & Hfrom & Hv' & Hto').
    rewrite Hfrom. f_equal. exact (to_sdn_injective _ _ _ Hv' Hv Hto' Hto).
Qed.

Lemma round_trip_iff_valid_witness :
  JD.from_sdn 400 2456600
  = Ok {| year := 5774; month := 2; day := 30; isLeapYear := true |}
  <-> 30 <= month_length 5774 2.
Proof.
  apply (round_trip_iff_valid 5774 2 30 _ 2456600 400);
    [reflexivity | vm_compute; reflexivity | vm_compute; discriminate].
Defined.

Lemma dict_get_outside (m : Z) (al : Z) :
  m < 4 \/ 13 < m ->
  JD.dict_get m
    [(4, al + 237); (5, al + 208); (6, al + 178); (7, 207); (8, 178); (9, 148);
     (10, 119); (11, 89); (12, 60); (13, 30)] = None.
Proof.
  intro H. cbn [JD.dict_get].
  repeat match goal with |- context [m =? ?k] =>
    rewrite (proj2 (Z.eqb_neq m k)) by lia end.
  reflexivity.
Qed.

Lemma to_sdn_body_cases (leap : bool) (t nt m d : Z) :
  (1 <= m <= 13 /\ exists s, to_sdn_body leap t nt m d = Ok s)
  \/ ((m < 1 \/ 13 < m) /\ to_sdn_body leap t nt m d = Raise InvalidDateError).
Proof.
  assert (Hc : m < 1 \/ 13 < m \/ 1 <= m <= 13) by lia.
  destruct Hc as [Hc|[Hc|Hc]].
  - right. split; [lia|]. unfold to_sdn_body, py_in. cbn [existsb].
    rewrite (proj2 (Z.eqb_neq m 1)), (proj2 (Z.eqb_neq m 2)),
      (proj2 (Z.eqb_neq m 3)) by lia.
    cbn [orb]. rewrite dict_get_outside by lia. reflexivity.
  - right. split; [lia|]. unfold to_sdn_body, py_in. cbn [existsb].
    rewrite (proj2 (Z.eqb_neq m 1)), (proj2 (Z.eqb_neq m 2)),
      (proj2 (Z.eqb_neq m 3)) by lia.
    cbn [orb]. rewrite dict_get_outside by lia. reflexivity.
  - left. split; [exact Hc|]. unfold to_sdn_body.
    month_cases m; cbn [JD.dict_get]; calc_closed;
      try match goal with |- context [if ?c then _ else _] => destruct c end;
      eexists; reflexivity.
Qed.

(** X4: [to_sdn] raises [InvalidDateError] exactly for a date object whose
    year is not positive, whose day is outside 1..30 or whose month is
    outside 1..13 (attributes can be reassigned after construction); for
    every other date it returns a serial day number.  It raises nothing
    else. *)
Theorem to_sdn_raises_iff :
  forall self : JewishDate,
    (JD.to_sdn self = Raise InvalidDateError
     <-> (year self <= 0 \/ day self <= 0 \/ 30 < day self
          \/ month self < 1 \/ 13 < month self))
    /\ (JD.to_sdn self = Raise InvalidDateError \/ exists s, JD.to_sdn self = Ok s).
Proof.
  intro self. rewrite to_sdn_unfold.
  destruct (Z.leb_spec (year self) 0) as [Hy|Hy];
    [cbn [orb]; split; [split; [lia | reflexivity] | left; reflexivity]|].
  destruct (Z.leb_spec (day self) 0) as [Hd|Hd];
    [cbn [orb]; split; [split; [lia | reflexivity] | left; reflexivity]|].
  destruct (Z.gtb_spec (day self) 30) as [Hd'|Hd'];
    [cbn [orb]; split; [split; [lia | reflexivity] | left; reflexivity]|].
  cbn [orb].
  destruct (to_sdn_body_cases (isLeapYear self) (tishrei1_of_year (year self))
              (next_tishrei1 (year self)) (month self) (day self))
    as [[Hm [s Hs]]|[Hm Hr]].
  - rewrite Hs. split; [split; [discriminate | lia] | right; exists s; reflexivity].
  - rewrite Hr. split; [split; [lia | reflexivity] | left; reflexivity].
Qed.

(** X5: with enough fuel for its cycle loop, [from_sdn] raises
    [InvalidDateError] exactly for serial day numbers at or before the epoch
    offset 347997. *)
Theorem from_sdn_raises_iff :
  forall (fuel : nat) (sdn : Z),
    sdn <= 6939 * Z.of_nat fuel ->
    (JD.from_sdn fuel sdn = Raise InvalidDateError <-> sdn <= _JEWISH_SDN_OFFSET).
Proof.
  intros fuel sdn Hfuel. split.
  - intro Hr. destruct (Z.leb_spec sdn _JEWISH_SDN_OFFSET) as [Hle|Hgt]; [exact Hle|].
    destruct (from_sdn_good fuel sdn Hgt Hfuel) as (date & Hfrom & _).
    rewrite Hfrom in Hr. discriminate Hr.
  - intro Hle. unfold JD.from_sdn.
    replace (sdn <=? _JEWISH_SDN_OFFSET) with true by lia. reflexivity.
Qed.

Lemma from_sdn_raises_iff_witness :
  JD.from_sdn 1 0 = Raise InvalidDateError <-> 0 <= _JEWISH_SDN_OFFSET.
Proof. apply (from_sdn_raises_iff 1 0). vm_compute; discriminate. Defined.

(** X6: the postponement rules delay the start of a year by 0, 1 or 2 days
    after the day of the molad, whatever the molad and the metonic
    position. *)
Theorem first_day_postponed_at_most_two_days :
  forall (metonicCycleYear : Z) (molad : _Molad),
    let t := _get_first_day_of_year metonicCycleYear molad in
    t = molad_day molad \/ t = molad_day molad + 1 \/ t = molad_day molad + 2.
Proof.
  intros my m. cbv zeta. pose proof (first_day_delay my m). lia.
Qed.

Lemma from_sdn_of_valid (a : JewishDate) (s : Z) (fuel : nat) :
  valid_date a -> JD.to_sdn a = Ok s -> s <= 6939 * Z.of_nat fuel ->
  JD.from_sdn fuel s = Ok a.
Proof.
  intros Hv Hto Hfuel.
  pose proof (to_sdn_after_epoch _ _ Hv Hto) as Hafter.
  destruct (from_sdn_good fuel s Hafter Hfuel) as (a' & Hfrom & Hv' & Hto').
  rewrite Hfrom. f_equal. exact (to_sdn_injective _ _ _ Hv' Hv Hto' Hto).
Qed.

(** X7: the molad and the first day that [to_sdn] and [from_sdn] reach by
    advancing a year's molad by the months of that year are the molad and
    the first day that [_find_start_of_year] returns for the next year. *)
Theorem next_year_start_consistent :
  forall y : Z,
    let '(_, metonicYear, molad, _) := _find_start_of_year y in
    let '(_, _, nextMolad, nextTishrei1) := _find_start_of_year (y + 1) in
    Molad.add_lunar_cycles molad (months_in_metonic_year metonicYear) = nextMolad
    /\ _get_first_day_of_year ((metonicYear + 1) mod 19)
         (Molad.add_lunar_cycles molad (months_in_metonic_year metonicYear))
       = nextTishrei1.
Proof.
  intro y.
  change (Molad.add_lunar_cycles (molad_of_year y)
            (months_in_metonic_year ((y - 1) mod 19)) = molad_of_year (y + 1)
          /\ next_tishrei1 y = tishrei1_of_year (y + 1)).
  split; [apply molad_of_next_year | apply next_tishrei1_eq].
Qed.

Lemma months_before_closed_form (y : Z) : months_before y = (235 * y - 234) / 19.
Proof.
  unfold months_before.
  pose proof (Z.div_mod (y - 1) 19 ltac:(lia)) as Hdm.
  pose proof (Z.mod_pos_bound (y - 1) 19 ltac:(lia)) as Hr.
  remember ((y - 1) / 19) as q eqn:Eq. remember ((y - 1) mod 19) as r eqn:Er.
  replace (235 * y - 234) with ((235 * r + 1) + (235 * q) * 19) by lia.
  rewrite Z.div_add by lia. clear Hdm Eq Er.
  cases_below Hr; try lia; calc_tables;
    match goal with |- context [?a / 19] =>
      let v := eval vm_compute in (a / 19) in change (a / 19) with v end; lia.
Qed.

(** X8: the molad that [_find_start_of_year] returns for year [y] is
    normalized and denotes the epoch molad (31524 halakim) plus
    [(235 * y - 234) / 19] lunations of 765433 halakim: the cycle count and
    the [_YEAR_OFFSET] table add up to the number of months before the
    year. *)
Theorem molad_of_year_closed_form :
  forall y : Z,
    let '(_, _, molad, _) := _find_start_of_year y in
    0 <= halakim molad < 25920
    /\ molad_day molad * 25920 + halakim molad
       = 31524 + 765433 * ((235 * y - 234) / 19).
Proof.
  intro y.
  change (0 <= halakim (molad_of_year y) < 25920
          /\ Molad.total (molad_of_year y) = 31524 + 765433 * ((235 * y - 234) / 19)).
  split; [apply (molad_of_year_normalized y)|].
  rewrite molad_of_year_total, months_before_closed_form. reflexivity.
Qed.

Lemma find_start_of_year_at (c my : Z) :
  0 <= my <= 18 ->
  _find_start_of_year (19 * c + my + 1)
  = (c, my, molad_of_year (19 * c + my + 1),
     _get_first_day_of_year my (molad_of_year (19 * c + my + 1))).
Proof.
  intro H. rewrite first_day_at by exact H.
  unfold tishrei1_of_year, molad_of_year, _find_start_of_year.
  destruct (cycle_position c my ltac:(lia)) as [-> ->]. reflexivity.
Qed.

(** X9: for a day [x] the search [_find_nearby_tishrei_molad] returns the
    cycle, position and molad of a year as [_find_start_of_year] computes
    them; that molad is no more than 75 days before [x], and unless the year
    is year 1 the molad of the year before is at least 73 days before [x]. *)
Theorem find_nearby_tishrei_molad_spec :
  forall (fuel : nat) (x : Z),
    -310 <= x -> (0 < fuel)%nat -> x + 308 <= 6939 * Z.of_nat fuel ->
    exists (c my : Z) (molad : _Molad),
      _find_nearby_tishrei_molad fuel x = Some (c, my, molad)
      /\ 0 <= c /\ 0 <= my <= 18
      /\ _find_start_of_year (19 * c + my + 1)
         = (c, my, molad, _get_first_day_of_year my molad)
      /\ x - 75 <= molad_day molad
      /\ (19 * c + my + 1 = 1
          \/ let '(_, _, previous, _) := _find_start_of_year (19 * c + my) in
             molad_day previous <= x - 73).
Proof.
  intros fuel x Hx Hpos Hfuel.
  destruct (find_nearby_spec fuel x Hx Hpos Hfuel)
    as (c & my & Hfind & Hc & Hmy & Hup & Hlow).
  exists c, my, (molad_of_year (19 * c + my + 1)).
  split; [exact Hfind|]. split; [exact Hc|]. split; [exact Hmy|].
  split; [apply find_start_of_year_at; exact Hmy|].
  split; [lia|]. exact Hlow.
Qed.

Lemma find_nearby_tishrei_molad_spec_witness :
  exists (c my : Z) (molad : _Molad),
    _find_nearby_tishrei_molad 400 2108544 = Some (c, my, molad)
    /\ 0 <= c /\ 0 <= my <= 18
    /\ _find_start_of_year (19 * c + my + 1)
       = (c, my, molad, _get_first_day_of_year my molad)
    /\ 2108544 - 75 <= molad_day molad
    /\ (19 * c + my + 1 = 1
        \/ let '(_, _, previous, _) := _find_start_of_year (19 * c + my) in
           molad_day previous <= 2108544 - 73).
Proof.
  apply (find_nearby_tishrei_molad_spec 400 2108544);
    [vm_compute; discriminate | lia | vm_compute; discriminate].
Defined.

(** X10: [from_sdn] is strictly increasing: a later serial day number gives
    a chronologically later date. *)
Theorem from_sdn_strictly_increasing :
  forall (fuel : nat) (s1 s2 : Z),
    _JEWISH_SDN_OFFSET < s1 -> s1 < s2 -> s2 <= 6939 * Z.of_nat fuel ->
    exists d1 d2 : JewishDate,
      JD.from_sdn fuel s1 = Ok d1 /\ JD.from_sdn fuel s2 = Ok d2 /\ date_lt d1 d2.
Proof.
  intros fuel s1 s2 H1 H12 Hfuel.
  destruct (from_sdn_good fuel s1 H1 ltac:(lia)) as (d1 & Hf1 & Hv1 & Ht1).
  destruct (from_sdn_good fuel s2 ltac:(lia) Hfuel) as (d2 & Hf2 & Hv2 & Ht2).
  exists d1, d2. split; [exact Hf1|]. split; [exact Hf2|].
  destruct (valid_date_trichotomy d1 d2 Hv1 Hv2) as [E|[Hlt|Hgt]].
  - subst d2. rewrite Ht1 in Ht2. injection Ht2 as E. lia.
  - exact Hlt.
  - destruct (to_sdn_strictly_increasing d2 d1 Hv2 Hv1 Hgt) as (a & b & Ea & Eb & Hab).
    rewrite Ht2 in Ea. rewrite Ht1 in Eb. injection Ea as <-. injection Eb as <-. lia.
Qed.

Lemma from_sdn_strictly_increasing_witness :
  exists d1 d2 : JewishDate,
    JD.from_sdn 400 2456540 = Ok d1 /\ JD.from_sdn 400 2456541 = Ok d2
    /\ date_lt d1 d2.
Proof.
  apply (from_sdn_strictly_increasing 400 2456540 2456541);
    [reflexivity | reflexivity | vm_compute; discriminate].
Defined.

(** X11: for a valid date [to_sdn] counts days: the epoch offset, the first
    day of the year, the lengths of the months before, and the day of the
    month; the lengths of the thirteen months add up to the distance to the
    first day of the next year. *)
Theorem to_sdn_counts_days :
  forall a : JewishDate,
    valid_date a ->
    JD.to_sdn a
    = Ok (tishrei1_of_year (year a) + days_before_month (year a) (month a)
          + day a - 1 + _JEWISH_SDN_OFFSET)
    /\ fold_right Z.add 0 (map (month_length (year a)) all_months)
       = tishrei1_of_year (year a + 1) - tishrei1_of_year (year a).
Proof.
  intros a Hv. split; [apply to_sdn_valid_date; exact Hv|].
  rewrite tishrei1_of_year_succ. unfold month_length.
  replace (tishrei1_of_year (year a) + year_length (year a) - tishrei1_of_year (year a))
    with (year_length (year a)) by lia.
  year_kinds (year a); rewrite Hleap, Hlen; reflexivity.
Qed.

Lemma to_sdn_counts_days_witness :
  JD.to_sdn {| year := 5774; month := 7; day := 14; isLeapYear := true |}
  = Ok (tishrei1_of_year 5774 + days_before_month 5774 7 + 14 - 1
        + _JEWISH_SDN_OFFSET)
  /\ fold_right Z.add 0 (map (month_length 5774) all_months)
     = tishrei1_of_year (5774 + 1) - tishrei1_of_year 5774.
Proof.
  apply (to_sdn_counts_days
           {| year := 5774; month := 7; day := 14; isLeapYear := true |}).
  unfold valid_date; cbn [year month day isLeapYear]; vm_compute;
    intuition discriminate.
Defined.

Lemma to_sdn_existing_month (y m d : Z) :
  1 <= y -> 1 <= m <= 13 -> 1 <= month_length y m -> 1 <= d <= 30 ->
  JD.to_sdn {| year := y; month := m; day := d; isLeapYear := is_leap_year y |}
  = Ok (tishrei1_of_year y + days_before_month y m + d - 1 + _JEWISH_SDN_OFFSET).
Proof.
  intros Hy Hm Hex Hd.
  rewrite to_sdn_constructed by lia.
  unfold to_sdn_body, month_length, days_before_month in *.
  pose proof (tishrei1_of_year_succ y) as Hnt. rewrite <- next_tishrei1_eq in Hnt.
  rewrite Hnt.
  replace (tishrei1_of_year y + year_length y - tishrei1_of_year y)
    with (year_length y) by lia.
  generalize dependent (tishrei1_of_year y). intros t _.
  year_kinds y; rewrite Hleap, Hlen in *; clear Hleap Hlen;
    month_cases m; revert Hex; cbn [JD.dict_get]; calc_closed; cbv iota;
    intro Hex; try (exfalso; lia); f_equal; lia.
Qed.

Lemma days_before_month_succ (y m : Z) :
  1 <= m < 13 ->
  days_before_month y (m + 1) = days_before_month y m + month_length y m.
Proof.
  intro Hm. unfold days_before_month, month_length.
  year_kinds y; rewrite Hleap, Hlen; month_cases m; calc_closed; reflexivity.
Qed.

Lemma days_before_elul (y : Z) :
  days_before_month y 13 + month_length y 13 = year_length y.
Proof.
  unfold days_before_month, month_length.
  year_kinds y; rewrite Hleap, Hlen; reflexivity.
Qed.

Lemma month_after_short_month (y m : Z) :
  1 <= m < 13 -> month_length y m = 29 -> 29 <= month_length y (m + 1).
Proof.
  intros Hm. unfold month_length.
  year_kinds y; rewrite Hleap, Hlen; month_cases m; calc_closed; lia.
Qed.

Lemma month_missing (y m : Z) :
  1 <= m <= 13 -> month_length y m < 1 -> m = 6 /\ is_leap_year y = false.
Proof.
  intros Hm. unfold month_length.
  year_kinds y; rewrite Hleap, Hlen; month_cases m; calc_closed; intro Hlt;
    try (exfalso; lia); split; reflexivity.
Qed.

Lemma to_sdn_body_adar_i (t nt d : Z) :
  to_sdn_body false t nt 6 d = to_sdn_body false t nt 7 d.
Proof. reflexivity. Qed.

(** [to_sdn] of any constructed date, valid or not: a month that the year
    does not have counts as month 7. *)
Lemma to_sdn_constructed_formula (y m d : Z) :
  1 <= y -> 1 <= m <= 13 -> 1 <= d <= 30 ->
  JD.to_sdn {| year := y; month := m; day := d; isLeapYear := is_leap_year y |}
  = Ok (tishrei1_of_year y
        + days_before_month y (if month_length y m <? 1 then 7 else m)
        + d - 1 + _JEWISH_SDN_OFFSET).
Proof.
  intros Hy Hm Hd.
  destruct (Z.ltb_spec (month_length y m) 1) as [Hmiss|Hex].
  - destruct (month_missing y m Hm Hmiss) as [-> Hcommon].
    rewrite to_sdn_constructed by lia. rewrite Hcommon, to_sdn_body_adar_i.
    rewrite <- Hcommon. rewrite <- to_sdn_constructed by lia.
    apply to_sdn_existing_month; try lia.
    assert (H7 : month_length y 7 = 29) by reflexivity. lia.
  - apply to_sdn_existing_month; lia.
Qed.

(** X12: the 30th of a month that has 29 days in its year is constructible
    but is not kept: [to_sdn] gives it the serial day number of the 1st of
    the following month (of 1 Tishrei of the next year after Elul), and
    [from_sdn] of that number returns that following date. *)
Theorem day_30_of_short_month :
  forall (y m : Z) (date : JewishDate) (s : Z) (fuel : nat),
    JD.init y m 30 = Ok date ->
    month_length y m = 29 ->
    JD.to_sdn date = Ok s ->
    s <= 6939 * Z.of_nat fuel ->
    JD.from_sdn fuel s
    = Ok (if m =? 13
          then {| year := y + 1; month := 1; day := 1;
                  isLeapYear := is_leap_year (y + 1) |}
          else {| year := y; month := m + 1; day := 1;
                  isLeapYear := is_leap_year y |}).
Proof.
  intros y m date s fuel Hinit Hshort Hto Hfuel.
  apply init_ok in Hinit. destruct Hinit as (Hy & Hm & _ & ->).
  rewrite to_sdn_existing_month in Hto by lia. injection Hto as <-.
  assert (H1 : forall z, month_length z 1 = 30) by reflexivity.
  assert (H0 : forall z, days_before_month z 1 = 0) by reflexivity.
  destruct (Z.eqb_spec m 13) as [->|Hne].
  - apply from_sdn_of_valid; [| |exact Hfuel].
    + unfold valid_date; cbn [year month day isLeapYear]. rewrite H1.
      repeat split; lia.
    + rewrite to_sdn_valid by (rewrite ?H1; lia).
      rewrite H0, tishrei1_of_year_succ, <- days_before_elul. f_equal. lia.
  - pose proof (month_after_short_month y m ltac:(lia) Hshort) as Hnext.
    apply from_sdn_of_valid; [| |exact Hfuel].
    + unfold valid_date; cbn [year month day isLeapYear]. repeat split; lia.
    + rewrite to_sdn_valid by lia.
      rewrite days_before_month_succ by lia. f_equal. lia.
Qed.

Lemma day_30_of_short_month_witness :
  JD.from_sdn 400 2456926
  = Ok (if 13 =? 13
        then {| year := 5774 + 1; month := 1; day := 1;
                isLeapYear := is_leap_year (5774 + 1) |}
        else {| year := 5774; month := 13 + 1; day := 1;
                isLeapYear := is_leap_year 5774 |}).
Proof.
  apply (day_30_of_short_month 5774 13
           {| year := 5774; month := 13; day := 30; isLeapYear := true |});
    [reflexivity | reflexivity | vm_compute; reflexivity | vm_compute; discriminate].
Defined.

(** X13: a date with month 6 (Adar I) in a common year does not come back
    from the round trip: for a day up to 29, [from_sdn (to_sdn date)] is the
    same day of month 7 (Adar). *)
Theorem adar_i_common_year_round_trip :
  forall (y d : Z) (date : JewishDate) (s : Z) (fuel : nat),
    JD.init y JD.ADAR_I d = Ok date ->
    is_leap_year y = false ->
    d <= 29 ->
    JD.to_sdn date = Ok s ->
    s <= 6939 * Z.of_nat fuel ->
    JD.from_sdn fuel s
    = Ok {| year := y; month := JD.ADAR_II; day := d; isLeapYear := false |}.
Proof.
  intros y d date s fuel Hinit Hcommon Hd29 Hto Hfuel.
  apply init_ok in Hinit. destruct Hinit as (Hy & _ & Hd & ->).
  rewrite to_sdn_constructed in Hto by lia.
  rewrite <- Hcommon.
  apply from_sdn_of_valid; [| |exact Hfuel].
  - unfold valid_date, JD.ADAR_II; cbn [year month day isLeapYear].
    (split; [lia|]); (split; [lia|]); (split; [|reflexivity]).
    unfold month_length. change (month_length_of (is_leap_year y) (year_length y) 7) with 29.
    lia.
  - rewrite to_sdn_constructed by lia. rewrite <- Hto.
    unfold JD.ADAR_I, JD.ADAR_II, to_sdn_body. rewrite Hcommon.
    cbn [JD.dict_get]. calc_closed. reflexivity.
Qed.

Lemma adar_i_common_year_round_trip_witness :
  JD.from_sdn 400 2457074
  = Ok {| year := 5775; month := JD.ADAR_II; day := 1; isLeapYear := false |}.
Proof.
  apply (adar_i_common_year_round_trip 5775 1
           {| year := 5775; month := 6; day := 1; isLeapYear := false |});
    [reflexivity | reflexivity | vm_compute; discriminate
     | vm_compute; reflexivity | vm_compute; discriminate].
Defined.

(** X14: the molad operations compose by adding the counts: two additions
    of lunar (or metonic) cycles are one addition of the sum, a metonic cycle
    is 235 lunar cycles, and adding and taking away the same number of
    cycles leaves the normalized molad. *)
Theorem molad_cycles_compose :
  forall (m : _Molad) (a b : Z),
    Molad.add_lunar_cycles (Molad.add_lunar_cycles m a) b
    = Molad.add_lunar_cycles m (a + b)
    /\ Molad.add_metonic_cycles (Molad.add_metonic_cycles m a) b
       = Molad.add_metonic_cycles m (a + b)
    /\ Molad.add_metonic_cycles m a = Molad.add_lunar_cycles m (235 * a)
    /\ Molad.add_lunar_cycles (Molad.add_lunar_cycles m a) (- a) = Molad._fix m.
Proof.
  intros m a b. repeat split; apply MoladFacts.normalized_total_inj;
    try apply MoladFacts.add_lunar_normalized;
    try apply MoladFacts.add_metonic_normalized;
    try apply MoladFacts.fix_normalized;
    rewrite ?MoladFacts.add_lunar_total, ?MoladFacts.add_metonic_total,
      ?MoladFacts.fix_total;
    unfold HALAKIM_PER_METONIC_CYCLE; lia.
Qed.

(** X15: for every date the constructor accepts, [english_month_name]
    returns the entry of the names table at [month - 1]; it raises no
    [IndexError]. *)
Theorem english_month_name_constructed :
  forall (y m d : Z) (date : JewishDate),
    JD.init y m d = Ok date ->
    exists name : string,
      JD.english_month_name date = Ok name
      /\ nth_error JD.names (Z.to_nat (m - 1)) = Some name.
Proof.
  intros y m d date Hinit.
  apply init_ok in Hinit. destruct Hinit as (_ & Hm & _ & ->).
  destruct (is_leap_year y); month_cases m; eexists; split; reflexivity.
Qed.

Lemma english_month_name_constructed_witness :
  exists name : string,
    JD.english_month_name
      {| year := 5774; month := 8; day := 15; isLeapYear := true |} = Ok name
    /\ nth_error JD.names (Z.to_nat (8 - 1)) = Some name.
Proof. apply (english_month_name_constructed 5774 8 15). reflexivity. Defined.

(** X19: [to_sdn] of every date the constructor accepts, valid or not, is
    a serial day number after the epoch offset, hence positive. *)
Theorem to_sdn_constructed_after_epoch :
  forall (y m d : Z) (date : JewishDate),
    JD.init y m d = Ok date ->
    exists s : Z, JD.to_sdn date = Ok s /\ _JEWISH_SDN_OFFSET < s /\ 0 < s.
Proof.
  intros y m d date Hinit.
  apply init_ok in Hinit. destruct Hinit as (Hy & Hm & Hd & ->).
  rewrite to_sdn_constructed_formula by lia.
  pose proof (tishrei1_positive y Hy) as Hpos.
  pose proof (days_in_year y (if month_length y m <? 1 then 7 else m)
                ltac:(destruct (month_length y m <? 1); lia)) as Hdays.
  eexists. split; [reflexivity|]. unfold _JEWISH_SDN_OFFSET. lia.
Qed.

Lemma to_sdn_constructed_after_epoch_witness :
  exists s : Z,
    JD.to_sdn {| year := 1; month := 6; day := 1; isLeapYear := false |} = Ok s
    /\ _JEWISH_SDN_OFFSET < s /\ 0 < s.
Proof. apply (to_sdn_constructed_after_epoch 1 6 1). reflexivity. Defined.

(** X20: within a month [to_sdn] advances by one with the day: for any two
    constructed dates of the same year and month with days [d] and [d + 1]
    the serial day numbers are consecutive. *)
Theorem to_sdn_next_day :
  forall (y m d : Z) (date1 date2 : JewishDate),
    JD.init y m d = Ok date1 ->
    JD.init y m (d + 1) = Ok date2 ->
    exists s : Z, JD.to_sdn date1 = Ok s /\ JD.to_sdn date2 = Ok (s + 1).
Proof.
  intros y m d date1 date2 H1 H2.
  apply init_ok in H1. destruct H1 as (Hy & Hm & Hd & ->).
  apply init_ok in H2. destruct H2 as (_ & _ & Hd' & ->).
  rewrite !to_sdn_constructed_formula by lia.
  eexists. split; [reflexivity|]. f_equal. lia.
Qed.

Lemma to_sdn_next_day_witness :
  exists s : Z,
    JD.to_sdn {| year := 5774; month := 3; day := 29; isLeapYear := true |} = Ok s
    /\ JD.to_sdn {| year := 5774; month := 3; day := 29 + 1; isLeapYear := true |}
       = Ok (s + 1).
Proof. apply (to_sdn_next_day 5774 3 29); reflexivity. Defined.

(* ------------------------------------------------------------------ *)
(** ** [jcal.py] against [jewish/date.py] *)

Lemma jcal_add_halakim (m : _Molad) (k : Z) :
  Jcal._addHalakim m k = Molad._add_halakim m k.
Proof.
  unfold Jcal._addHalakim, Molad._add_halakim, Jcal.Molad_fix, Molad._fix,
    Jcal.HALAKIM_PER_DAY, HALAKIM_PER_DAY.
  reflexivity.
Qed.

Lemma jcal_add_lunar_cycles (m : _Molad) (n : Z) :
  Jcal.addLunarCycles m n = Molad.add_lunar_cycles m n.
Proof.
  unfold Jcal.addLunarCycles, Molad.add_lunar_cycles. rewrite jcal_add_halakim.
  unfold Jcal.HALAKIM_PER_LUNAR_CYCLE, HALAKIM_PER_LUNAR_CYCLE,
    Jcal.HALAKIM_PER_DAY, HALAKIM_PER_DAY.
  reflexivity.
Qed.

Lemma jcal_add_metonic_cycles (m : _Molad) (n : Z) :
  Jcal.addMetonicCycles m n = Molad.add_metonic_cycles m n.
Proof.
  unfold Jcal.addMetonicCycles, Molad.add_metonic_cycles. rewrite jcal_add_halakim.
  unfold Jcal.HALAKIM_PER_METONIC_CYCLE, HALAKIM_PER_METONIC_CYCLE,
    Jcal.HALAKIM_PER_LUNAR_CYCLE, HALAKIM_PER_LUNAR_CYCLE,
    Jcal.HALAKIM_PER_DAY, HALAKIM_PER_DAY.
  reflexivity.
Qed.

Lemma jcal_molad_of_metonic_cycle (c : Z) :
  Jcal.MoladOfMetonicCycle c = _molad_of_metonic_cycle c.
Proof.
  unfold Jcal.MoladOfMetonicCycle, _molad_of_metonic_cycle.
  rewrite jcal_add_metonic_cycles.
  unfold Jcal.Molad_init, Molad.init, Jcal.Molad_fix, Molad._fix,
    Jcal.HALAKIM_PER_DAY, HALAKIM_PER_DAY, Jcal.NEW_MOON_OF_CREATION,
    _NEW_MOON_OF_CREATION.
  reflexivity.
Qed.

Lemma jcal_tishrei1 (my : Z) (m : _Molad) :
  Jcal.Tishrei1 my m = _get_first_day_of_year my m.
Proof.
  unfold Jcal.Tishrei1, _get_first_day_of_year, Jcal.dayOfWeek, Molad.day_of_week,
    Jcal.NOON, _NOON, Jcal.AM3_11_20, _AM3_11_20, Jcal.AM9_32_43, _AM9_32_43,
    Jcal.HALAKIM_PER_HOUR, HALAKIM_PER_HOUR, Jcal.LEAP_YEARS, LEAP_YEARS,
    Jcal.TUESDAY, _TUESDAY, Jcal.MONDAY, _MONDAY, Jcal.WEDNESDAY, _WEDNESDAY,
    Jcal.FRIDAY, _FRIDAY, Jcal.SUNDAY, _SUNDAY.
  reflexivity.
Qed.

Lemma jcal_cycle_loop (fuel : nat) (x : Z) :
  forall (c : Z) (m : _Molad), Jcal.cycle_loop fuel x c m = cycle_loop fuel x c m.
Proof.
  induction fuel as [|f IH]; intros c m; [reflexivity|].
  cbn [Jcal.cycle_loop cycle_loop]. rewrite jcal_add_metonic_cycles, IH. reflexivity.
Qed.

Lemma jcal_year_loop (n : nat) (x : Z) :
  forall (my : Z) (m : _Molad), Jcal.year_loop n x my m = year_loop n x my m.
Proof.
  induction n as [|n IH]; intros my m; [reflexivity|].
  cbn [Jcal.year_loop year_loop]. rewrite jcal_add_lunar_cycles, IH. reflexivity.
Qed.

Lemma jcal_find_tishrei_molad (fuel : nat) (x : Z) :
  Jcal.FindTishreiMolad fuel x = _find_nearby_tishrei_molad fuel x.
Proof.
  unfold Jcal.FindTishreiMolad, _find_nearby_tishrei_molad. cbv zeta.
  rewrite jcal_molad_of_metonic_cycle, jcal_cycle_loop.
  destruct (cycle_loop fuel x ((x + 310) / 6940) _) as [[c m]|]; [|reflexivity].
  rewrite jcal_year_loop. reflexivity.
Qed.

Lemma jcal_last_months (x t : Z) (table : list (Z * Z)) :
  forall m : Z, Jcal.last_months x t table m = JD.last_months x t table m.
Proof.
  induction table as [|[m' o] rest IH]; intro m; [reflexivity|].
  cbn [Jcal.last_months JD.last_months]. rewrite IH. reflexivity.
Qed.

Lemma jcal_init (y m d : Z) (date : JewishDate) :
  JD.init y m d = Ok date -> Jcal.JewishDate_init y m d = date.
Proof. intro H. apply init_ok in H. destruct H as (_ & _ & _ & ->). reflexivity. Qed.

Lemma jcal_cheshvan_or_kislev (y x t nt : Z) (date : JewishDate) :
  JD.cheshvan_or_kislev y x t nt = Ok date ->
  Jcal.cheshvan_or_kislev y x t nt = date.
Proof.
  unfold JD.cheshvan_or_kislev, Jcal.cheshvan_or_kislev. cbv zeta.
  match goal with |- context [if ?a <=? ?b then _ else _] => destruct (a <=? b) end;
    apply jcal_init.
Qed.

Ltac replace_by lem :=
  let E := fresh "E" in
  let o := fresh "o" in
  pose proof lem as E;
  match type of E with ?l = _ => generalize dependent l end;
  intros o E; subst o.

Lemma jcal_sdn_to_jewish_unfold (fuel : nat) (sdn : Z) :
  Jcal.SdnToJewish fuel sdn = jcal_sdn_to_jewish_body fuel sdn.
Proof.
  unfold Jcal.SdnToJewish, jcal_sdn_to_jewish_body.
  change Jcal.JEWISH_SDN_OFFSET with _JEWISH_SDN_OFFSET.
  destruct (sdn <=? _JEWISH_SDN_OFFSET); [reflexivity|].
  cbv zeta. generalize (sdn - _JEWISH_SDN_OFFSET) as x. intro x.
  replace_by (jcal_find_tishrei_molad fuel x).
  destruct (_find_nearby_tishrei_molad fuel x) as [[[c my] molad]|]; [|reflexivity].
  replace_by (jcal_tishrei1 my molad).
  change (Jcal.monthsInMetonicYear my) with (months_in_metonic_year my).
  replace_by (jcal_add_lunar_cycles molad (months_in_metonic_year my)).
  replace_by (jcal_tishrei1 ((my + 1) mod 19)
                (Molad.add_lunar_cycles molad (months_in_metonic_year my))).
  replace_by (jcal_last_months x (_get_first_day_of_year my molad)
                [(13, 30); (12, 60); (11, 89); (10, 119); (9, 148); (8, 178)] 0).
  change (Jcal.IsLeapYear (c * 19 + my)) with (is_leap_year (c * 19 + my)).
  replace_by (jcal_find_tishrei_molad fuel (molad_day molad - 365)).
  destruct (_find_nearby_tishrei_molad fuel (molad_day molad - 365))
    as [[[c2 my2] molad2]|]; [replace_by (jcal_tishrei1 my2 molad2)|];
    reflexivity.
Qed.

(** Where [from_sdn] returns a date, [SdnToJewish] returns the same date. *)
Lemma jcal_agrees (fuel : nat) (sdn : Z) (date : JewishDate) :
  JD.from_sdn fuel sdn = Ok date ->
  Jcal.SdnToJewish fuel sdn = Ok (Some date).
Proof.
  rewrite jcal_sdn_to_jewish_unfold.
  unfold JD.from_sdn, jcal_sdn_to_jewish_body.
  destruct (sdn <=? _JEWISH_SDN_OFFSET); [discriminate|].
  cbv zeta. generalize (sdn - _JEWISH_SDN_OFFSET) as x. intro x.
  destruct (_find_nearby_tishrei_molad fuel x) as [[[c my] molad]|]; [|discriminate].
  generalize (_get_first_day_of_year my molad) as t. intro t.
  destruct (x >=? t).
  - destruct (x <? t + 59).
    + destruct (x <? t + 30); intro H; apply jcal_init in H; rewrite <- H; reflexivity.
    + intro H. apply jcal_cheshvan_or_kislev in H. rewrite <- H. reflexivity.
  - destruct (x >=? t - 177).
    + change [(JD.ELUL, 30); (JD.AV, 60); (JD.TAMUZ, 89); (JD.SIVAN, 119);
              (JD.IYAR, 148); (JD.NISAN, 178)]
        with [(13, 30); (12, 60); (11, 89); (10, 119); (9, 148); (8, 178)].
      destruct (JD.last_months x t _ 0) as [m [d|]]; [|discriminate].
      intro H; apply jcal_init in H; rewrite <- H; reflexivity.
    + destruct (x - t + 207 >? 0);
        [intro H; apply jcal_init in H; rewrite <- H; reflexivity|].
      destruct (is_leap_year (c * 19 + my)); cbn [andb].
      * destruct (x - t + 207 + 30 >? 0);
          [intro H; apply jcal_init in H; rewrite <- H; reflexivity|].
        destruct (x - t + 207 + 30 + 30 >? 0);
          [intro H; apply jcal_init in H; rewrite <- H; reflexivity|].
        destruct (x - t + 207 + 30 + 30 + 29 >? 0);
          [intro H; apply jcal_init in H; rewrite <- H; reflexivity|].
        destruct (_find_nearby_tishrei_molad fuel (molad_day molad - 365))
          as [[[c2 my2] molad2]|]; [|discriminate].
        intro H. apply jcal_cheshvan_or_kislev in H. rewrite <- H. reflexivity.
      * destruct (x - t + 207 + 30 >? 0);
          [intro H; apply jcal_init in H; rewrite <- H; reflexivity|].
        destruct (x - t + 207 + 30 + 29 >? 0);
          [intro H; apply jcal_init in H; rewrite <- H; reflexivity|].
        destruct (_find_nearby_tishrei_molad fuel (molad_day molad - 365))
          as [[[c2 my2] molad2]|]; [|discriminate].
        intro H. apply jcal_cheshvan_or_kislev in H. rewrite <- H. reflexivity.
Qed.

(** X16: [jcal.SdnToJewish] does what its docstring says: for a serial day
    number after the epoch offset it returns a date with year > 0, month in
    1..13 and day in 1..30; that date is the one [JewishDate.from_sdn] of
    [jewish/date.py] returns. *)
Theorem jcal_sdn_to_jewish :
  forall (fuel : nat) (sdn : Z),
    Jcal.JEWISH_SDN_OFFSET < sdn -> sdn <= 6939 * Z.of_nat fuel ->
    exists date : JewishDate,
      Jcal.SdnToJewish fuel sdn = Ok (Some date)
      /\ JD.from_sdn fuel sdn = Ok date
      /\ 0 < year date /\ 1 <= month date <= 13 /\ 1 <= day date <= 30.
Proof.
  intros fuel sdn Hs Hfuel.
  destruct (from_sdn_good fuel sdn Hs Hfuel) as (date & Hfrom & Hv & _).
  exists date. split; [apply jcal_agrees; exact Hfrom|]. split; [exact Hfrom|].
  destruct Hv as (Hy & Hm & Hd & _).
  pose proof (month_length_le_30 (year date) (month date)). lia.
Qed.

Lemma jcal_sdn_to_jewish_witness :
  exists date : JewishDate,
    Jcal.SdnToJewish 400 2456541 = Ok (Some date)
    /\ JD.from_sdn 400 2456541 = Ok date
    /\ 0 < year date /\ 1 <= month date <= 13 /\ 1 <= day date <= 30.
Proof.
  apply (jcal_sdn_to_jewish 400 2456541); [reflexivity | vm_compute; discriminate].
Defined.

(** X17: [jcal.SdnToJewish] returns [None] exactly for serial day numbers
    at or before the epoch offset, where [from_sdn] raises. *)
Theorem jcal_sdn_to_jewish_none :
  forall (fuel : nat) (sdn : Z),
    sdn <= 6939 * Z.of_nat fuel ->
    (Jcal.SdnToJewish fuel sdn = Ok None <-> sdn <= Jcal.JEWISH_SDN_OFFSET).
Proof.
  intros fuel sdn Hfuel. split.
  - intro Hn. destruct (Z.leb_spec sdn Jcal.JEWISH_SDN_OFFSET) as [Hle|Hgt]; [exact Hle|].
    destruct (from_sdn_good fuel sdn Hgt Hfuel) as (date & Hfrom & _).
    apply jcal_agrees in Hfrom. rewrite Hfrom in Hn. discriminate Hn.
  - intro Hle. unfold Jcal.SdnToJewish.
    replace (sdn <=? Jcal.JEWISH_SDN_OFFSET) with true by lia. reflexivity.
Qed.

Lemma jcal_sdn_to_jewish_none_witness :
  Jcal.SdnToJewish 51 347997 = Ok None <-> 347997 <= Jcal.JEWISH_SDN_OFFSET.
Proof. apply (jcal_sdn_to_jewish_none 51 347997). vm_compute; discriminate. Defined.

(** X18: [from_date] accepts every Python date: for an ordinal from 1 on
    (1 January of year 1) it returns a Jewish date, and [to_date] of that
    date hands the same ordinal to [date.fromordinal]. *)
Theorem from_date_to_date :
  forall (fuel : nat) (ordinal : Z),
    1 <= ordinal ->
    ordinal + _GREGORIAN_SDN_OFFSET <= 6939 * Z.of_nat fuel ->
    exists date : JewishDate,
      from_date_ordinal fuel ordinal = Ok date
      /\ to_date_ordinal date = Ok ordinal.
Proof.
  intros fuel n Hn Hfuel. unfold from_date_ordinal, to_date_ordinal.
  assert (Hafter : _JEWISH_SDN_OFFSET < n + _GREGORIAN_SDN_OFFSET)
    by (unfold _JEWISH_SDN_OFFSET, _GREGORIAN_SDN_OFFSET; lia).
  destruct (from_sdn_good fuel _ Hafter Hfuel) as (date & Hfrom & _ & Hto).
  exists date. split; [exact Hfrom|]. rewrite Hto. f_equal. lia.
Qed.

Lemma from_date_to_date_witness :
  exists date : JewishDate,
    from_date_ordinal 400 735116 = Ok date
    /\ to_date_ordinal date = Ok 735116.
Proof.
  apply (from_date_to_date 400 735116); vm_compute; discriminate.
Defined.

(** X21: the [_YEAR_OFFSET] table is the running total of
    [months_in_metonic_year]: each entry is the one before plus the months
    of that position, and the last entry plus the months of position 18 is
    the 235 months of a metonic cycle. *)
Theorem year_offset_table :
  forall p : Z,
    0 <= p <= 18 ->
    nth (Z.to_nat p) _YEAR_OFFSET 0 + months_in_metonic_year p
    = if p =? 18 then 12 * 19 + 7 else nth (Z.to_nat (p + 1)) _YEAR_OFFSET 0.
Proof.
  intros p Hp. assert (H : 0 <= p < 19) by lia. clear Hp.
  cases_below H; reflexivity.
Qed.

Lemma year_offset_table_witness :
  nth (Z.to_nat 7) _YEAR_OFFSET 0 + months_in_metonic_year 7
  = if 7 =? 18 then 12 * 19 + 7 else nth (Z.to_nat (7 + 1)) _YEAR_OFFSET 0.
Proof. apply (year_offset_table 7). lia. Defined.
